(** * Docker image accelerator: image-reference rewriting and the
      pull / tag / cleanup workflow

    A shallow embedding of
    [skills/docker-image-accelerator/scripts/accelerate_docker_pull.py].

    Python strings are modelled as [string] (sequences of [ascii]); the
    script only concatenates strings, tests them for a prefix and looks
    for the one-character strings ['/'], ['.'] and [':'], so nothing
    depends on the alphabet.  The dictionary [REGISTRY_MIRRORS] is a
    [gmap string string].  The functions that start a process are written
    in a small monad that threads the state of the machine, collects what
    is printed and which commands are started, and propagates Python
    exceptions. *)

From Stdlib Require Import Ascii String ZArith List Bool Lia.
From stdpp Require Import base gmap strings list fin_maps pretty.

Local Open Scope string_scope.

(** ** Python string primitives *)

Module Py.

(** [c in s] for a one-character string [c]. *)
Fixpoint contains (c : ascii) (s : string) : bool :=
  match s with
  | EmptyString => false
  | String x s' => Ascii.eqb x c || contains c s'
  end.

(** [s.count(c)] for a one-character string [c]. *)
Fixpoint count (c : ascii) (s : string) : nat :=
  match s with
  | EmptyString => 0
  | String x s' => (if Ascii.eqb x c then 1 else 0) + count c s'
  end.

(** [s.startswith(p)]. *)
Fixpoint startswith (p s : string) : bool :=
  match p, s with
  | EmptyString, _ => true
  | String _ _, EmptyString => false
  | String a p', String b s' => Ascii.eqb a b && startswith p' s'
  end.

(** Puts a character in front of the first piece of a split. *)
Definition push_front (c : ascii) (parts : list string) : list string :=
  match parts with
  | [] => [String c EmptyString]
  | p :: ps => String c p :: ps
  end.

(** [s.split(sep)] for a one-character separator. *)
Fixpoint split (sep : ascii) (s : string) : list string :=
  match s with
  | EmptyString => [EmptyString]
  | String c s' =>
      if Ascii.eqb c sep then EmptyString :: split sep s'
      else push_front c (split sep s')
  end.

(** [s.split(sep, maxsplit)] for a one-character separator and
    [maxsplit >= 0]: at most [maxsplit] cuts, from the left. *)
Fixpoint split_max (sep : ascii) (maxsplit : nat) (s : string) {struct s}
  : list string :=
  match maxsplit with
  | 0 => [s]
  | S m =>
      match s with
      | EmptyString => [EmptyString]
      | String c s' =>
          if Ascii.eqb c sep then EmptyString :: split_max sep m s'
          else push_front c (split_max sep maxsplit s')
      end
  end.

(** [s * n]. *)
Fixpoint repeat (s : string) (n : nat) : string :=
  match n with
  | 0 => EmptyString
  | S n' => s +:+ repeat s n'
  end.

(** The part of [s] before its first [sep] (all of [s] if there is none):
    the first path segment of a reference.  Used in statements only. *)
Fixpoint first_segment (sep : ascii) (s : string) : string :=
  match s with
  | EmptyString => EmptyString
  | String c s' =>
      if Ascii.eqb c sep then EmptyString else String c (first_segment sep s')
  end.

End Py.

(** ** The mirror table and the two pure functions *)

Definition REGISTRY_MIRRORS : gmap string string :=
  list_to_map [
    ("docker.io", "m.daocloud.io/docker.io");
    ("gcr.io", "m.daocloud.io/gcr.io");
    ("ghcr.io", "m.daocloud.io/ghcr.io");
    ("k8s.gcr.io", "m.daocloud.io/k8s.gcr.io");
    ("registry.k8s.io", "m.daocloud.io/registry.k8s.io");
    ("quay.io", "m.daocloud.io/quay.io");
    ("k8s-gcr.m.daocloud.io", "m.daocloud.io/k8s.gcr.io");
    ("docker.m.daocloud.io", "m.daocloud.io/docker.io");
    ("elastic.m.daocloud.io", "m.daocloud.io/docker.elastic.co");
    ("gcr.m.daocloud.io", "m.daocloud.io/gcr.io");
    ("ghcr.m.daocloud.io", "m.daocloud.io/ghcr.io");
    ("k8s.m.daocloud.io", "m.daocloud.io/registry.k8s.io");
    ("mcr.m.daocloud.io", "m.daocloud.io/mcr.microsoft.com");
    ("nvcr.m.daocloud.io", "m.daocloud.io/nvcr.io");
    ("quay.m.daocloud.io", "m.daocloud.io/quay.io")
  ].

(** The accelerator hostname followed by ['/'], as the statements name it. *)
Definition accelerator_prefix : string := "m.daocloud.io/".

Definition normalize_image_name (image : string) : string :=
  if negb (Py.contains "/" image) then "docker.io/library/" +:+ image
  else
    let parts := Py.split "/" image in
    match parts with
    | [p0; _] =>
        if negb (Py.contains "." p0) && negb (Py.contains ":" p0)
        then "docker.io/" +:+ image
        else image
    | _ => image
    end.

Definition convert_to_mirror_image (image : string) : option string :=
  let parts := Py.split_max "/" 1 image in
  match parts with
  | registry :: rest :: _ =>
      match REGISTRY_MIRRORS !! registry with
      | Some mirror_registry =>
          match rest with
          | EmptyString => Some mirror_registry
          | _ => Some (mirror_registry +:+ "/" +:+ rest)
          end
      | None =>
          if Py.startswith "m.daocloud.io/" image then Some image
          else Some ("m.daocloud.io/" +:+ image)
      end
  | _ => None
  end.

(** ** Processes, printing and exceptions *)

(** What [subprocess.run] gets for one command: the process ran and
    exited with a return code and its captured output as text, or the call
    raises an exception other than [CalledProcessError] ([msg] is its
    [str]): the process could not be started ([FileNotFoundError] or
    another [OSError]) or its output could not be decoded as text. *)
Inductive completion : Type :=
| Exited (returncode : Z) (stdout stderr : string)
| NotRun (msg : string).

(** The three ways [subprocess.run] ends. *)
Inductive subprocess_result : Type :=
| CompletedProcess (returncode : Z) (stdout stderr : string)
| CalledProcessError (returncode : Z) (stdout stderr : string)
| OtherException (msg : string).

(** What an observer of a run sees, in order: a call of [print] with its
    argument, or a command handed to [subprocess.run]. *)
Inductive event : Type :=
| Print (line : string)
| Spawn (argv : list string).

(** A computation returns a value or raises an [Exception] whose [str] is
    [msg]. *)
Inductive result (A : Type) : Type :=
| Return (a : A)
| Raise (msg : string).
Arguments Return {A} a.
Arguments Raise {A} msg.

Record run (W A : Type) : Type := Run {
  outcome : result A;
  trace : list event;
  after : W
}.
Arguments Run {W A} outcome trace after.
Arguments outcome {W A} r.
Arguments trace {W A} r.
Arguments after {W A} r.

(** The commands started during a run, in order. *)
Fixpoint commands (t : list event) : list (list string) :=
  match t with
  | [] => []
  | Print _ :: t' => commands t'
  | Spawn argv :: t' => argv :: commands t'
  end.

Definition newline : string := String "010" EmptyString.

Section Machine.

(** The state of the machine outside the script (the container runtime,
    the image store, the network) and what running a command does to it. *)
Context {World : Type}.
Variable os_exec : list string -> World -> completion * World.

Definition M (A : Type) : Type := World -> run World A.

Definition ret {A : Type} (a : A) : M A :=
  fun w => Run (Return a) [] w.

Definition bind {A B : Type} (c : M A) (k : A -> M B) : M B :=
  fun w =>
    match c w with
    | Run (Return a) t w1 =>
        let '(Run o t' w2) := k a w1 in
        Run o (t ++ t') w2
    | Run (Raise msg) t w1 => Run (Raise msg) t w1
    end.

(** [try: body  except Exception as e: handler(str(e))]. *)
Definition try_except {A : Type} (body : M A) (handler : string -> M A) : M A :=
  fun w =>
    match body w with
    | Run (Return a) t w1 => Run (Return a) t w1
    | Run (Raise msg) t w1 =>
        let '(Run o t' w2) := handler msg w1 in
        Run o (t ++ t') w2
    end.

Definition print (line : string) : M unit :=
  fun w => Run (Return tt) [Print line] w.

Notation "'let*' x ':=' c 'in' k" := (bind c (fun x => k))
  (at level 10, x name, c at level 100, k at level 200).
Notation "'let*' ' p ':=' c 'in' k" := (bind c (fun x => match x with p => k end))
  (at level 10, p pattern, c at level 100, k at level 200).
Notation "c ';;;' k" := (bind c (fun _ => k))
  (at level 100, k at level 200, right associativity).

(** [subprocess.run(command, capture_output=True, text=True, check=check)]. *)
Definition subprocess_run (command : list string) (check : bool) (w : World)
  : subprocess_result * World :=
  match os_exec command w with
  | (Exited returncode stdout stderr, w') =>
      if check && negb (returncode =? 0)%Z
      then (CalledProcessError returncode stdout stderr, w')
      else (CompletedProcess returncode stdout stderr, w')
  | (NotRun msg, w') => (OtherException msg, w')
  end.

Definition run_command (command : list string) (check : bool)
  : M (Z * string * string) :=
  fun w =>
    match subprocess_run command check w with
    | (CompletedProcess returncode stdout stderr, w') =>
        Run (Return (returncode, stdout, stderr)) [Spawn command] w'
    | (CalledProcessError returncode stdout stderr, w') =>
        Run (Return (returncode, stdout, stderr)) [Spawn command] w'
    | (OtherException msg, w') => Run (Raise msg) [Spawn command] w'
    end.

Definition pull_image (image : string) : M (Z * string * string) :=
  print ("[INFO] Pulling image: " +:+ image) ;;;
  run_command ["docker"; "pull"; image] true.

Definition tag_image (source target : string) : M (Z * string * string) :=
  print ("[INFO] Tagging: " +:+ source +:+ " -> " +:+ target) ;;;
  run_command ["docker"; "tag"; source; target] true.

Definition remove_image (image : string) : M (Z * string * string) :=
  print ("[INFO] Removing mirror tag: " +:+ image) ;;;
  run_command ["docker"; "rmi"; image] false.

Definition accelerate_pull (original_image : string) : M bool :=
  try_except
    (let normalized_image := normalize_image_name original_image in
     print ("[INFO] Original image: " +:+ original_image) ;;;
     print ("[INFO] Normalized: " +:+ normalized_image) ;;;
     match convert_to_mirror_image normalized_image with
     | None | Some EmptyString =>
         print ("[ERROR] Unsupported image source '" +:+ original_image +:+ "'") ;;;
         ret false
     | Some mirror_image =>
         print ("[INFO] Mirror image: " +:+ mirror_image) ;;;
         let* '(returncode, _, stderr) := pull_image mirror_image in
         if negb (returncode =? 0)%Z then
           print ("[ERROR] Pull failed: " +:+ stderr) ;;;
           ret false
         else
           print "[SUCCESS] Pull completed" ;;;
           let target_image :=
             if Py.contains "/" original_image then original_image
             else normalized_image in
           let* '(returncode, _, stderr) := tag_image mirror_image target_image in
           (if negb (returncode =? 0)%Z
            then print ("[WARNING] Rename warning: " +:+ stderr)
            else print "[SUCCESS] Rename completed") ;;;
           (if negb (String.eqb mirror_image target_image) then
              let* '(returncode, _, stderr) := remove_image mirror_image in
              if negb (returncode =? 0)%Z
              then print ("[WARNING] Cleanup warning: " +:+ stderr)
              else print "[SUCCESS] Cleanup completed"
            else ret tt) ;;;
           print (newline +:+ "[SUCCESS] Image '" +:+ target_image
                  +:+ "' pulled and configured successfully!") ;;;
           ret true
     end)
    (fun e =>
       print ("[ERROR] Exception occurred: " +:+ e) ;;;
       ret false).

(** The [for image in images] loop of [main], with its two counters. *)
Fixpoint main_loop (images : list string) (success_count failed_count : nat)
  : M (nat * nat) :=
  match images with
  | [] => ret (success_count, failed_count)
  | image :: images' =>
      print (newline +:+ Py.repeat "=" 60) ;;;
      let* ok := accelerate_pull image in
      if ok then main_loop images' (success_count + 1) failed_count
      else main_loop images' success_count (failed_count + 1)
  end.

(** [main], with [sys.argv] as its argument; the value returned is the
    argument of the [sys.exit] that ends it. *)
Definition main (argv : list string) : M Z :=
  if (List.length argv <? 2)%nat then
    print "用法: python accelerate_docker_pull.py <镜像名称> [镜像名称2] ..." ;;;
    print (newline +:+ "示例:") ;;;
    print "  python accelerate_docker_pull.py nginx:latest" ;;;
    print "  python accelerate_docker_pull.py gcr.io/pause:3.1" ;;;
    print "  python accelerate_docker_pull.py python:3.9-slim" ;;;
    ret 1%Z
  else
    let images := drop 1 argv in
    print (Py.repeat "=" 60) ;;;
    print "[INFO] Docker Image Accelerator" ;;;
    print "[INFO] Using DaoCloud mirror for acceleration" ;;;
    print (Py.repeat "=" 60) ;;;
    print "" ;;;
    let* '(success_count, failed_count) := main_loop images 0 0 in
    print (newline +:+ Py.repeat "=" 60) ;;;
    print ("[SUMMARY] Success: " +:+ pretty success_count
           +:+ ", Failed: " +:+ pretty failed_count) ;;;
    print (Py.repeat "=" 60 +:+ newline) ;;;
    ret (if (failed_count =? 0)%nat then 0%Z else 1%Z).

End Machine.

(** ** Notions used in the statements *)

Section Statements.

Context {World : Type}.
Variable os_exec : list string -> World -> completion * World.

(** Not a translation of a source function: the run of [accelerate_pull]
    spelled out, case by case on what the operating system answers, for an
    input whose mirror reference is [mirror].  It is proved equal to
    [accelerate_pull] below and only serves to read runs off. *)
Definition workflow (original mirror : string) (w : World) : run World bool :=
  let normalized := normalize_image_name original in
  let target := if Py.contains "/" original then original else normalized in
  let exception msg := Print ("[ERROR] Exception occurred: " +:+ msg) in
  let configured :=
    Print (newline +:+ "[SUCCESS] Image '" +:+ target
           +:+ "' pulled and configured successfully!") in
  let t0 : list event :=
    [Print ("[INFO] Original image: " +:+ original);
     Print ("[INFO] Normalized: " +:+ normalized);
     Print ("[INFO] Mirror image: " +:+ mirror);
     Print ("[INFO] Pulling image: " +:+ mirror);
     Spawn ["docker"; "pull"; mirror]] in
  match os_exec ["docker"; "pull"; mirror] w with
  | (NotRun msg, w1) => Run (Return false) (t0 ++ [exception msg])%list w1
  | (Exited rc _ err, w1) =>
      if negb (rc =? 0)%Z
      then Run (Return false) (t0 ++ [Print ("[ERROR] Pull failed: " +:+ err)])%list w1
      else
        let t1 : list event :=
          (t0 ++ [Print "[SUCCESS] Pull completed";
                  Print ("[INFO] Tagging: " +:+ mirror +:+ " -> " +:+ target);
                  Spawn ["docker"; "tag"; mirror; target]])%list in
        match os_exec ["docker"; "tag"; mirror; target] w1 with
        | (NotRun msg, w2) => Run (Return false) (t1 ++ [exception msg])%list w2
        | (Exited rc_tag _ err_tag, w2) =>
            let t2 : list event :=
              (t1 ++ [Print (if negb (rc_tag =? 0)%Z
                             then "[WARNING] Rename warning: " +:+ err_tag
                             else "[SUCCESS] Rename completed")])%list in
            if String.eqb mirror target
            then Run (Return true) (t2 ++ [configured])%list w2
            else
              let t3 : list event :=
                (t2 ++ [Print ("[INFO] Removing mirror tag: " +:+ mirror);
                        Spawn ["docker"; "rmi"; mirror]])%list in
              match os_exec ["docker"; "rmi"; mirror] w2 with
              | (NotRun msg, w3) => Run (Return false) (t3 ++ [exception msg])%list w3
              | (Exited rc_rmi _ err_rmi, w3) =>
                  Run (Return true)
                    (t3 ++ [Print (if negb (rc_rmi =? 0)%Z
                                   then "[WARNING] Cleanup warning: " +:+ err_rmi
                                   else "[SUCCESS] Cleanup completed");
                            configured])%list w3
              end
        end
  end.

(** A batch as the specification has it: every image gets its own run of
    [accelerate_pull], one after the other, each starting from the machine
    as the run before left it, whatever that run returned. *)
Fixpoint batch (images : list string) (w : World) : list (run World bool) :=
  match images with
  | [] => []
  | image :: images' =>
      let r := accelerate_pull os_exec image w in
      r :: batch images' (after r)
  end.

(** The machine after a batch. *)
Fixpoint after_batch (images : list string) (w : World) : World :=
  match images with
  | [] => w
  | image :: images' =>
      after_batch images' (after (accelerate_pull os_exec image w))
  end.

End Statements.

(** A run of [accelerate_pull] that reported success. *)
Definition succeeded {W : Type} (r : run W bool) : bool :=
  match outcome r with
  | Return true => true
  | _ => false
  end.

Definition failed {W : Type} (r : run W bool) : bool := negb (succeeded r).

Definition count_if {A : Type} (p : A -> bool) (l : list A) : nat :=
  List.length (List.filter p l).

(** The line between two images and the summary line of [main]. *)
Definition rule : string := Py.repeat "=" 60.

Definition summary_line (success_count failed_count : nat) : string :=
  "[SUMMARY] Success: " +:+ pretty success_count
  +:+ ", Failed: " +:+ pretty failed_count.

(** A [docker pull] command line. *)
Definition is_pull (argv : list string) : bool :=
  match argv with
  | [program; sub; _] => String.eqb program "docker" && String.eqb sub "pull"
  | _ => false
  end.

(** A command line of the workflow: [docker pull], [docker tag] or
    [docker rmi] whose image operand is a reference under the accelerator
    hostname. *)
Definition on_mirror (argv : list string) : Prop :=
  exists mirror,
    Py.startswith accelerator_prefix mirror = true /\
    (argv = ["docker"; "pull"; mirror] \/
     (exists target, argv = ["docker"; "tag"; mirror; target]) \/
     argv = ["docker"; "rmi"; mirror]).

(** ** The conversion test, [test_conversion.py] *)

(** The rows of [test_cases]: input, expected normal form, expected
    mirror reference. *)
Definition test_cases : list (string * string * string) :=
  [ ("nginx:latest", "docker.io/library/nginx:latest",
     "m.daocloud.io/docker.io/library/nginx:latest");
    ("redis:7", "docker.io/library/redis:7",
     "m.daocloud.io/docker.io/library/redis:7");
    ("python:3.9-slim", "docker.io/library/python:3.9-slim",
     "m.daocloud.io/docker.io/library/python:3.9-slim");
    ("gcr.io/pause:3.1", "gcr.io/pause:3.1", "m.daocloud.io/gcr.io/pause:3.1");
    ("k8s.gcr.io/pause:3.1", "k8s.gcr.io/pause:3.1",
     "m.daocloud.io/k8s.gcr.io/pause:3.1");
    ("ghcr.io/actions/runner:latest", "ghcr.io/actions/runner:latest",
     "m.daocloud.io/ghcr.io/actions/runner:latest");
    ("quay.io/coreos/latest:latest", "quay.io/coreos/latest:latest",
     "m.daocloud.io/quay.io/coreos/latest:latest");
    ("docker.io/library/nginx:latest", "docker.io/library/nginx:latest",
     "m.daocloud.io/docker.io/library/nginx:latest") ].

(** An [Optional[str]] inside an f-string. *)
Definition format_optional (o : option string) : string :=
  match o with
  | Some s => s
  | None => "None"
  end.

(** [mirror == expected_mirror] for an [Optional[str]] and a [str]. *)
Definition optional_eqb (o : option string) (s : string) : bool :=
  match o with
  | Some m => String.eqb m s
  | None => false
  end.

Section TestConversion.

Context {World : Type}.

Local Notation "c ';;;' k" := (bind (World := World) c (fun _ => k))
  (at level 100, k at level 200, right associativity).

(** The [for i, (...) in enumerate(test_cases, 1)] loop. *)
Fixpoint test_loop (cases : list (string * string * string)) (i : nat)
    (all_passed : bool) : @M World bool :=
  match cases with
  | [] => ret all_passed
  | (input_img, expected_normalized, expected_mirror) :: cases' =>
      print ("测试 " +:+ pretty i +:+ ": " +:+ input_img) ;;;
      print (Py.repeat "-" 80) ;;;
      let normalized := normalize_image_name input_img in
      let normalized_ok := String.eqb normalized expected_normalized in
      print ("  标准化: " +:+ normalized) ;;;
      print ("  期望值: " +:+ expected_normalized) ;;;
      print ("  结果: " +:+ (if normalized_ok then "[PASS]" else "[FAIL]")) ;;;
      let mirror := convert_to_mirror_image normalized in
      let mirror_ok := optional_eqb mirror expected_mirror in
      print ("  加速地址: " +:+ format_optional mirror) ;;;
      print ("  期望值: " +:+ expected_mirror) ;;;
      print ("  结果: " +:+ (if mirror_ok then "[PASS]" else "[FAIL]")) ;;;
      let all_passed :=
        if negb (normalized_ok && mirror_ok) then false else all_passed in
      print "" ;;;
      test_loop cases' (S i) all_passed
  end.

Definition test_conversion : @M World bool :=
  print (Py.repeat "=" 80) ;;;
  print "镜像名称转换测试" ;;;
  print (Py.repeat "=" 80) ;;;
  print "" ;;;
  bind (test_loop test_cases 1 true) (fun all_passed =>
  print (Py.repeat "=" 80) ;;;
  (if all_passed then print "[SUCCESS] All tests passed!"
   else print "[FAILURE] Some tests failed!") ;;;
  print (Py.repeat "=" 80) ;;;
  ret all_passed).

(** The script's last line: [sys.exit(0 if success else 1)]. *)
Definition test_conversion_exit : @M World Z :=
  bind test_conversion (fun success => ret (if success then 0%Z else 1%Z)).

End TestConversion.

(** ** Scripted runtimes, used to run the workflow on examples *)

(** A runtime whose answer depends on the command only; its state counts
    the commands it was given. *)
Definition scripted (answer : list string -> completion)
  : list string -> nat -> completion * nat :=
  fun argv n => (answer argv, S n).

(** Pulls succeed, except that of [missing]; tagging and removing fail. *)
Definition grumpy (argv : list string) : completion :=
  match argv with
  | [_; sub; image] =>
      if String.eqb sub "pull" then
        if String.eqb image "m.daocloud.io/docker.io/library/missing"
        then Exited 1 "" "manifest unknown"
        else Exited 0 "" ""
      else if String.eqb sub "rmi" then Exited 1 "" "cannot remove"
      else NotRun "unknown command"
  | [_; sub; _; _] =>
      if String.eqb sub "tag" then Exited 1 "" "cannot tag"
      else NotRun "unknown command"
  | _ => NotRun "unknown command"
  end.

(** Every command succeeds. *)
Definition obliging (argv : list string) : completion := Exited 0 "" "".

(** Pulls succeed; tagging cannot even be started. *)
Definition vanishing (argv : list string) : completion :=
  match argv with
  | [_; sub; _] =>
      if String.eqb sub "pull" then Exited 0 "" ""
      else NotRun "[Errno 2] No such file or directory: 'docker'"
  | _ => NotRun "[Errno 2] No such file or directory: 'docker'"
  end.

(** Nothing can be started. *)
Definition absent (argv : list string) : completion :=
  NotRun "[Errno 2] No such file or directory: 'docker'".

(** Every command succeeds, but removals cannot be started. *)
Definition no_cleanup (argv : list string) : completion :=
  match argv with
  | [_; sub; _] =>
      if String.eqb sub "rmi" then NotRun "[Errno 12] Cannot allocate memory"
      else Exited 0 "" ""
  | _ => Exited 0 "" ""
  end.

(** ** Facts about the string primitives *)

Section PyFacts.

Variable sep : ascii.

Lemma contains_app (a b : string) :
  Py.contains sep (a +:+ b) = Py.contains sep a || Py.contains sep b.
Proof.
  induction a as [|x a IH]; simpl; [reflexivity|].
  rewrite IH. apply orb_assoc.
Qed.

Lemma contains_count (s : string) :
  Py.contains sep s = false <-> Py.count sep s = 0.
Proof.
  induction s as [|x s IH]; simpl; [tauto|].
  destruct (Ascii.eqb x sep); simpl; [split; [discriminate | lia] | exact IH].
Qed.

Lemma contains_count_pos (s : string) :
  Py.contains sep s = true <-> 0 < Py.count sep s.
Proof.
  induction s as [|x s IH]; simpl; [split; [discriminate | lia]|].
  destruct (Ascii.eqb x sep); simpl; [split; [lia | reflexivity] | exact IH].
Qed.

Lemma push_front_length (c : ascii) (parts : list string) :
  parts <> [] -> List.length (Py.push_front c parts) = List.length parts.
Proof. destruct parts; [congruence | reflexivity]. Qed.

Lemma split_length (s : string) :
  List.length (Py.split sep s) = S (Py.count sep s).
Proof.
  induction s as [|x s IH]; simpl; [reflexivity|].
  destruct (Ascii.eqb x sep); simpl; [now rewrite IH|].
  rewrite push_front_length; [exact IH|].
  intros E. rewrite E in IH. discriminate.
Qed.

Lemma split_first_segment (s : string) :
  exists more, Py.split sep s = Py.first_segment sep s :: more.
Proof.
  induction s as [|x s [more IH]]; simpl; [now exists []|].
  destruct (Ascii.eqb x sep); [eauto|].
  rewrite IH. simpl. eauto.
Qed.

Lemma split_app (a b : string) :
  Py.contains sep a = false ->
  Py.split sep (a +:+ String sep b) = a :: Py.split sep b.
Proof.
  induction a as [|x a IH]; simpl.
  - intros _. now rewrite Ascii.eqb_refl.
  - destruct (Ascii.eqb x sep); simpl; [discriminate|].
    intros H. now rewrite IH.
Qed.

Lemma split_max_none (n : nat) (s : string) :
  Py.contains sep s = false -> Py.split_max sep n s = [s].
Proof.
  destruct n as [|n]; [now destruct s|].
  induction s as [|x s IH]; simpl; [reflexivity|].
  destruct (Ascii.eqb x sep); simpl; [discriminate|].
  intros H. now rewrite IH.
Qed.

Lemma split_max_first (a b : string) :
  Py.contains sep a = false ->
  Py.split_max sep 1 (a +:+ String sep b) = [a; b].
Proof.
  induction a as [|x a IH]; simpl.
  - intros _. rewrite Ascii.eqb_refl. now destruct b.
  - destruct (Ascii.eqb x sep); simpl; [discriminate|].
    intros H. now rewrite IH.
Qed.

(** A string that contains [sep] is cut in two at its first [sep]. *)
Lemma contains_cut (s : string) :
  Py.contains sep s = true ->
  exists a b, s = a +:+ String sep b /\ Py.contains sep a = false.
Proof.
  induction s as [|x s IH]; simpl; [discriminate|].
  destruct (Ascii.eqb_spec x sep) as [->|Hne]; simpl.
  - intros _. now exists EmptyString, s.
  - intros H. destruct (IH H) as (a & b & -> & Ha).
    exists (String x a), b. simpl.
    destruct (Ascii.eqb_spec x sep); [contradiction | now split].
Qed.

Lemma first_segment_app (a b : string) :
  Py.contains sep a = false ->
  Py.first_segment sep (a +:+ String sep b) = a.
Proof.
  induction a as [|x a IH]; simpl.
  - intros _. now rewrite Ascii.eqb_refl.
  - destruct (Ascii.eqb x sep); simpl; [discriminate|].
    intros H. now rewrite IH.
Qed.

End PyFacts.

Lemma startswith_app (p s : string) : Py.startswith p (p +:+ s) = true.
Proof.
  induction p as [|x p IH]; simpl; [reflexivity|].
  now rewrite Ascii.eqb_refl.
Qed.

Lemma startswith_inv (p s : string) :
  Py.startswith p s = true -> exists r, s = p +:+ r.
Proof.
  revert s. induction p as [|x p IH]; intros s; simpl.
  - intros _. now exists s.
  - destruct s as [|y s]; [discriminate|].
    destruct (Ascii.eqb_spec x y) as [->|]; simpl; [|discriminate].
    intros H. destruct (IH _ H) as [r ->]. now exists r.
Qed.

(** ** Name normalization *)

(** The rows of [test_conversion.py]. *)
Example test_conversion_rows :
  Forall (fun '(input, normalized, mirror) =>
            normalize_image_name input = normalized /\
            convert_to_mirror_image normalized = Some mirror)
    [ ("nginx:latest", "docker.io/library/nginx:latest",
       "m.daocloud.io/docker.io/library/nginx:latest");
      ("redis:7", "docker.io/library/redis:7",
       "m.daocloud.io/docker.io/library/redis:7");
      ("python:3.9-slim", "docker.io/library/python:3.9-slim",
       "m.daocloud.io/docker.io/library/python:3.9-slim");
      ("gcr.io/pause:3.1", "gcr.io/pause:3.1", "m.daocloud.io/gcr.io/pause:3.1");
      ("k8s.gcr.io/pause:3.1", "k8s.gcr.io/pause:3.1",
       "m.daocloud.io/k8s.gcr.io/pause:3.1");
      ("ghcr.io/actions/runner:latest", "ghcr.io/actions/runner:latest",
       "m.daocloud.io/ghcr.io/actions/runner:latest");
      ("quay.io/coreos/latest:latest", "quay.io/coreos/latest:latest",
       "m.daocloud.io/quay.io/coreos/latest:latest");
      ("docker.io/library/nginx:latest", "docker.io/library/nginx:latest",
       "m.daocloud.io/docker.io/library/nginx:latest") ].
Proof. repeat constructor. Qed.

Lemma normalize_no_slash (raw : string) :
  Py.contains "/" raw = false ->
  normalize_image_name raw = "docker.io/library/" +:+ raw.
Proof. intros H. unfold normalize_image_name. now rewrite H. Qed.

(** With a ['/'] in [raw], the result is decided by the pieces of
    [raw.split('/')]: their number is one more than the number of ['/'] and
    the first of them is the first path segment. *)
Lemma normalize_slash (raw : string) :
  Py.contains "/" raw = true ->
  normalize_image_name raw =
    if (Py.count "/" raw =? 1)%nat
       && negb (Py.contains "." (Py.first_segment "/" raw))
       && negb (Py.contains ":" (Py.first_segment "/" raw))
    then "docker.io/" +:+ raw else raw.
Proof.
  intros H. unfold normalize_image_name. rewrite H. simpl.
  pose proof (split_length "/" raw) as Hlen.
  destruct (split_first_segment "/" raw) as [more Hsplit].
  rewrite Hsplit in *. simpl in Hlen.
  destruct more as [|p1 [|p2 more]]; simpl in Hlen.
  - apply contains_count_pos in H. lia.
  - replace (Py.count "/" raw) with 1 by lia. reflexivity.
  - replace (Py.count "/" raw) with (S (S (List.length more))) by lia.
    reflexivity.
Qed.

(** Whatever the input, the result is the input, possibly behind one of
    the two default prefixes. *)
Lemma normalize_cases (raw : string) :
  normalize_image_name raw = "docker.io/library/" +:+ raw \/
  Py.contains "/" raw = true /\
  (normalize_image_name raw = "docker.io/" +:+ raw \/
   normalize_image_name raw = raw).
Proof.
  destruct (Py.contains "/" raw) eqn:H.
  - right. split; [reflexivity|]. rewrite (normalize_slash _ H).
    destruct (_ && _); auto.
  - left. now apply normalize_no_slash.
Qed.

Lemma normalize_has_slash (raw : string) :
  Py.contains "/" (normalize_image_name raw) = true.
Proof.
  destruct (normalize_cases raw) as [-> | [H [-> | ->]]];
    [reflexivity | reflexivity | exact H].
Qed.

(** For every input one of the three rules applies. *)
Lemma normalize_rule_applies (raw : string) :
  let slashes := Py.count "/" raw in
  let first := Py.first_segment "/" raw in
  (slashes = 0 /\
   normalize_image_name raw = "docker.io/library/" +:+ raw)
  \/
  (slashes = 1 /\
   Py.contains "." first = false /\ Py.contains ":" first = false /\
   normalize_image_name raw = "docker.io/" +:+ raw)
  \/
  (0 < slashes /\
   (Py.contains "." first = true \/ Py.contains ":" first = true \/
    2 < List.length (Py.split "/" raw)) /\
   normalize_image_name raw = raw).
Proof.
  intros slashes first. subst slashes first.
  destruct (Py.contains "/" raw) eqn:H.
  - right. rewrite (normalize_slash _ H).
    apply contains_count_pos in H. rewrite split_length.
    destruct (Nat.eqb_spec (Py.count "/" raw) 1) as [E|E]; simpl.
    + destruct (Py.contains "." _) eqn:Hdot; simpl; [right; auto|].
      destruct (Py.contains ":" _) eqn:Hcolon; simpl; [right; auto|].
      left. auto.
    + right. split; [exact H|]. split; [|reflexivity].
      right. right. lia.
  - left. split; [now apply contains_count | now apply normalize_no_slash].
Qed.

(** The conditions of the three rules exclude each other. *)
Lemma normalize_rules_exclusive (raw : string) :
  let slashes := Py.count "/" raw in
  let first := Py.first_segment "/" raw in
  let rule1 := slashes = 0 in
  let rule2 := slashes = 1 /\ Py.contains "." first = false /\
               Py.contains ":" first = false in
  let rule3 := 0 < slashes /\
               (Py.contains "." first = true \/ Py.contains ":" first = true \/
                2 < List.length (Py.split "/" raw)) in
  ~ (rule1 /\ rule2) /\ ~ (rule1 /\ rule3) /\ ~ (rule2 /\ rule3).
Proof.
  simpl. rewrite split_length. repeat split.
  - intros [? [? _]]. lia.
  - intros [? [? _]]. lia.
  - intros [(E & Hdot & Hcolon) (_ & [H | [H | H]])]; [congruence | congruence | lia].
Qed.

(** C1.  For every [raw] exactly one of three rules gives
    [normalize_image_name raw].  With no ['/'] in [raw] the result is
    ['docker.io/library/' + raw]; with exactly one ['/'] and a first path
    segment that has neither ['.'] nor [':'] it is ['docker.io/' + raw];
    in every other case (there is a ['/'], and the first segment has a
    ['.'] or a [':'] or there are more than two segments) it is [raw].
    One of the three conditions always holds and no two hold together. *)
Theorem normalize_three_rules (raw : string) :
  let slashes := Py.count "/" raw in
  let first := Py.first_segment "/" raw in
  let rule1 := slashes = 0 in
  let rule2 := slashes = 1 /\ Py.contains "." first = false /\
               Py.contains ":" first = false in
  let rule3 := 0 < slashes /\
               (Py.contains "." first = true \/ Py.contains ":" first = true \/
                2 < List.length (Py.split "/" raw)) in
  (rule1 -> normalize_image_name raw = "docker.io/library/" +:+ raw) /\
  (rule2 -> normalize_image_name raw = "docker.io/" +:+ raw) /\
  (rule3 -> normalize_image_name raw = raw) /\
  (rule1 \/ rule2 \/ rule3) /\
  ~ (rule1 /\ rule2) /\ ~ (rule1 /\ rule3) /\ ~ (rule2 /\ rule3).
Proof.
  intros slashes first rule1 rule2 rule3.
  pose proof (normalize_rules_exclusive raw) as (H12 & H13 & H23).
  fold slashes first rule1 rule2 rule3 in H12, H13, H23.
  pose proof (normalize_rule_applies raw) as H.
  fold slashes first in H.
  assert (Hany : rule1 \/ rule2 \/ rule3).
  { destruct H as [[H1 _] | [(H1 & H2 & H3 & _) | (H1 & H2 & _)]].
    - left. exact H1.
    - right. left. repeat split; assumption.
    - right. right. split; assumption. }
  repeat split; try assumption.
  - intros R1.
    destruct H as [[_ H] | [(H1 & H2 & H3 & _) | (H1 & H2 & _)]];
      [exact H | elim H12 | elim H13]; repeat split; assumption.
  - intros R2.
    destruct H as [[H1 _] | [(_ & _ & _ & H) | (H1 & H2 & _)]];
      [elim H12 | exact H | elim H23]; repeat split; try assumption;
      apply R2.
  - intros R3.
    destruct H as [[H1 _] | [(H1 & H2 & H3 & _) | (_ & _ & H)]];
      [elim H13 | elim H23 | exact H]; repeat split; try assumption;
      apply R3.
Qed.

Lemma normalize_three_rules_witness :
  normalize_image_name "nginx:latest" = "docker.io/library/nginx:latest" /\
  normalize_image_name "library/nginx" = "docker.io/library/nginx" /\
  normalize_image_name "gcr.io/pause:3.1" = "gcr.io/pause:3.1" /\
  normalize_image_name "a/b/c" = "a/b/c".
Proof.
  split; [|split; [|split]].
  - exact (proj1 (normalize_three_rules "nginx:latest") eq_refl).
  - exact (proj1 (proj2 (normalize_three_rules "library/nginx"))
             (conj eq_refl (conj eq_refl eq_refl))).
  - refine (proj1 (proj2 (proj2 (normalize_three_rules "gcr.io/pause:3.1"))) _).
    split; [apply Nat.lt_0_1 | left; reflexivity].
  - refine (proj1 (proj2 (proj2 (normalize_three_rules "a/b/c"))) _).
    split; [apply Nat.lt_0_2 | right; right; apply Nat.lt_succ_diag_r].
Defined.

Example normalize_examples :
  normalize_image_name "nginx:latest" = "docker.io/library/nginx:latest" /\
  normalize_image_name "library/nginx" = "docker.io/library/nginx" /\
  normalize_image_name "gcr.io/pause:3.1" = "gcr.io/pause:3.1" /\
  normalize_image_name "localhost:5000/app" = "localhost:5000/app" /\
  normalize_image_name "a/b/c" = "a/b/c".
Proof. repeat split. Qed.

(** ** Mirror resolution *)

(** Every value of the table lies under the accelerator hostname. *)
Lemma mirror_prefix_under_accelerator (registry mirror_registry : string) :
  REGISTRY_MIRRORS !! registry = Some mirror_registry ->
  exists r, mirror_registry = accelerator_prefix +:+ r.
Proof.
  intros H. apply elem_of_list_to_map_2 in H.
  repeat (apply elem_of_cons in H as [H | H];
          [injection H as -> ->; eexists; reflexivity|]).
  inversion H.
Qed.

Lemma accelerator_not_a_key : REGISTRY_MIRRORS !! "m.daocloud.io" = None.
Proof. reflexivity. Qed.

(** Resolution of a reference cut at its first ['/']. *)
Lemma convert_cut (registry rest : string) :
  Py.contains "/" registry = false ->
  convert_to_mirror_image (registry +:+ String "/" rest) =
    match REGISTRY_MIRRORS !! registry with
    | Some mirror_registry =>
        match rest with
        | EmptyString => Some mirror_registry
        | _ => Some (mirror_registry +:+ "/" +:+ rest)
        end
    | None =>
        if Py.startswith accelerator_prefix (registry +:+ String "/" rest)
        then Some (registry +:+ String "/" rest)
        else Some (accelerator_prefix +:+ registry +:+ String "/" rest)
    end.
Proof.
  intros H. unfold convert_to_mirror_image.
  rewrite (split_max_first _ _ _ H). reflexivity.
Qed.

(** Resolution fails exactly on the references without a ['/']. *)
Lemma convert_none_iff (image : string) :
  convert_to_mirror_image image = None <-> Py.contains "/" image = false.
Proof.
  destruct (Py.contains "/" image) eqn:H.
  - destruct (contains_cut _ _ H) as (a & b & -> & Ha).
    rewrite (convert_cut _ _ Ha).
    split; [|discriminate].
    destruct (REGISTRY_MIRRORS !! a); [destruct b | destruct (Py.startswith _ _)];
      discriminate.
  - split; [reflexivity|]. intros _. unfold convert_to_mirror_image.
    now rewrite (split_max_none _ _ _ H).
Qed.

(** Every resolved reference begins with the accelerator hostname. *)
Lemma convert_under_accelerator (image mirror : string) :
  convert_to_mirror_image image = Some mirror ->
  exists r, mirror = accelerator_prefix +:+ r.
Proof.
  intros Hm.
  destruct (Py.contains "/" image) eqn:H.
  - destruct (contains_cut _ _ H) as (a & b & -> & Ha).
    rewrite (convert_cut _ _ Ha) in Hm.
    destruct (REGISTRY_MIRRORS !! a) as [p|] eqn:Hp.
    + destruct (mirror_prefix_under_accelerator _ _ Hp) as [r ->].
      destruct b; injection Hm as <-; eexists; reflexivity.
    + destruct (Py.startswith _ _) eqn:Hs; injection Hm as <-.
      * now apply startswith_inv.
      * eexists; reflexivity.
  - apply convert_none_iff in H. congruence.
Qed.

Lemma convert_nonempty (image mirror : string) :
  convert_to_mirror_image image = Some mirror -> mirror <> EmptyString.
Proof.
  intros H. destruct (convert_under_accelerator _ _ H) as [r ->]. discriminate.
Qed.

(** A reference under the accelerator hostname is a fixed point of both
    functions. *)
Lemma convert_mirrored (r : string) :
  convert_to_mirror_image (accelerator_prefix +:+ r) =
    Some (accelerator_prefix +:+ r).
Proof.
  change (accelerator_prefix +:+ r) with ("m.daocloud.io" +:+ String "/" r).
  rewrite convert_cut by reflexivity.
  rewrite accelerator_not_a_key.
  change ("m.daocloud.io" +:+ String "/" r) with (accelerator_prefix +:+ r).
  now rewrite startswith_app.
Qed.

Lemma normalize_mirrored (r : string) :
  normalize_image_name (accelerator_prefix +:+ r) = accelerator_prefix +:+ r.
Proof.
  assert (H : Py.contains "/" (accelerator_prefix +:+ r) = true) by reflexivity.
  rewrite (normalize_slash _ H).
  change (accelerator_prefix +:+ r) with ("m.daocloud.io" +:+ String "/" r).
  rewrite first_segment_app by reflexivity.
  simpl. now rewrite andb_false_r.
Qed.

(** C2.  For a reference [registry + '/' + rest] cut at its first ['/'],
    with [rest] not empty: if [registry] is a key of the table, the
    result is the key's mirror prefix, ['/'] and [rest]; if it is not and
    the reference does not begin with ['m.daocloud.io/'], the result is
    ['m.daocloud.io/'] followed by the whole reference. *)
Theorem convert_known_or_fallback (registry rest : string) :
  Py.contains "/" registry = false ->
  rest <> EmptyString ->
  let image := registry +:+ "/" +:+ rest in
  (forall mirror_registry,
      REGISTRY_MIRRORS !! registry = Some mirror_registry ->
      convert_to_mirror_image image = Some (mirror_registry +:+ "/" +:+ rest))
  /\
  (REGISTRY_MIRRORS !! registry = None ->
   Py.startswith "m.daocloud.io/" image = false ->
   convert_to_mirror_image image = Some ("m.daocloud.io/" +:+ image)).
Proof.
  intros Hreg Hrest image. subst image.
  change ("/" +:+ rest) with (String "/" rest).
  rewrite (convert_cut _ _ Hreg). split.
  - intros p ->. destruct rest; [congruence | reflexivity].
  - intros -> Hs. unfold accelerator_prefix. now rewrite Hs.
Qed.

Lemma convert_known_or_fallback_witness :
  convert_to_mirror_image "docker.io/library/redis:7" =
    Some "m.daocloud.io/docker.io/library/redis:7" /\
  convert_to_mirror_image "example.com/foo:1" =
    Some "m.daocloud.io/example.com/foo:1".
Proof.
  assert (Hne : forall c s, String c s <> EmptyString) by discriminate.
  split.
  - exact (proj1 (convert_known_or_fallback "docker.io" "library/redis:7"
                    eq_refl (Hne _ _)) _ eq_refl).
  - exact (proj2 (convert_known_or_fallback "example.com" "foo:1"
                    eq_refl (Hne _ _)) eq_refl eq_refl).
Defined.

(** C4, as the specification has it, fails: ['docker.io/'] is its own
    normal form and nothing follows its first ['/'], yet it resolves to
    the mirror prefix of [docker.io]. *)
Lemma empty_rest_resolves :
  ~ (forall registry : string,
        Py.contains "/" registry = false ->
        normalize_image_name (registry +:+ "/") = registry +:+ "/" ->
        convert_to_mirror_image (registry +:+ "/") = None).
Proof.
  intros H. specialize (H "docker.io" eq_refl eq_refl). discriminate.
Qed.

(** C4, amended.  A reference [registry + '/'] with nothing after its
    first ['/'] resolves: to the mirror prefix alone if [registry] is a key
    of the table, to itself if it begins with ['m.daocloud.io/'], and to
    ['m.daocloud.io/'] followed by the reference otherwise.  Resolution
    returns [None] exactly for the references without any ['/']. *)
Theorem convert_empty_rest (registry : string) :
  Py.contains "/" registry = false ->
  let image := registry +:+ "/" in
  convert_to_mirror_image image =
    Some (match REGISTRY_MIRRORS !! registry with
          | Some mirror_registry => mirror_registry
          | None => if Py.startswith "m.daocloud.io/" image then image
                    else "m.daocloud.io/" +:+ image
          end)
  /\
  (forall reference,
      convert_to_mirror_image reference = None <->
      Py.contains "/" reference = false).
Proof.
  intros Hreg image. subst image. split; [|apply convert_none_iff].
  change (registry +:+ "/") with (registry +:+ String "/" EmptyString).
  rewrite (convert_cut _ _ Hreg).
  destruct (REGISTRY_MIRRORS !! registry); [reflexivity|].
  unfold accelerator_prefix. now destruct (Py.startswith _ _).
Qed.

Lemma convert_empty_rest_witness :
  convert_to_mirror_image "docker.io/" = Some "m.daocloud.io/docker.io" /\
  convert_to_mirror_image "example.com/" = Some "m.daocloud.io/example.com/" /\
  convert_to_mirror_image "nginx" = None.
Proof.
  split; [|split].
  - exact (proj1 (convert_empty_rest "docker.io" eq_refl)).
  - exact (proj1 (convert_empty_rest "example.com" eq_refl)).
  - exact (proj2 (proj2 (convert_empty_rest "docker.io" eq_refl) "nginx") eq_refl).
Defined.

(** C8.  Resolution is idempotent on its own output: a resolved reference
    is its own normal form and resolves to itself, so no second
    accelerator hostname is put in front. *)
Theorem convert_idempotent (x mirror : string) :
  convert_to_mirror_image x = Some mirror ->
  convert_to_mirror_image (normalize_image_name mirror) = Some mirror.
Proof.
  intros H. destruct (convert_under_accelerator _ _ H) as [r ->].
  rewrite normalize_mirrored. apply convert_mirrored.
Qed.

Lemma convert_idempotent_witness :
  convert_to_mirror_image "docker.io/library/nginx:latest" =
    Some "m.daocloud.io/docker.io/library/nginx:latest" /\
  convert_to_mirror_image
    (normalize_image_name "m.daocloud.io/docker.io/library/nginx:latest") =
    Some "m.daocloud.io/docker.io/library/nginx:latest".
Proof.
  split; [reflexivity|].
  apply (convert_idempotent "docker.io/library/nginx:latest"). reflexivity.
Defined.

(** ** The pull, tag and cleanup workflow *)

Section Workflow.

Context {World : Type}.
Variable os_exec : list string -> World -> completion * World.

(** Runs the monadic code up to the next answer of the operating system. *)
Ltac run_steps :=
  cbv beta iota zeta delta
    [try_except bind pull_image tag_image remove_image run_command
     subprocess_run print ret andb negb app outcome trace after].

(** Once the mirror reference is known, a run of [accelerate_pull] is the
    run [workflow] spells out. *)
Lemma accelerate_pull_workflow (original mirror : string) (w : World) :
  convert_to_mirror_image (normalize_image_name original) = Some mirror ->
  accelerate_pull os_exec original w = workflow os_exec original mirror w.
Proof.
  intros Hm. pose proof (convert_nonempty _ _ Hm) as Hne.
  unfold accelerate_pull, workflow. rewrite Hm.
  destruct mirror as [|c m]; [exfalso; apply Hne; reflexivity|].
  run_steps.
  destruct (os_exec ["docker"; "pull"; String c m] w) as [[rc out err|msg] w1];
    run_steps; [|reflexivity].
  destruct (rc =? 0)%Z eqn:Hrc; run_steps; rewrite ?Hrc; run_steps;
    [|reflexivity].
  destruct (os_exec _ w1) as [[rc_tag out_tag err_tag|msg] w2];
    run_steps; [|reflexivity].
  destruct (rc_tag =? 0)%Z eqn:Htag; run_steps; rewrite ?Htag; run_steps;
    (destruct (String.eqb _ _); run_steps; [reflexivity|];
     destruct (os_exec _ w2) as [[rc_rmi out_rmi err_rmi|msg] w3];
     run_steps; [|reflexivity];
     destruct (rc_rmi =? 0)%Z eqn:Hrmi; run_steps; rewrite ?Hrmi; reflexivity).
Qed.

(** Normalization always leaves a ['/'], so resolution always answers. *)
Lemma resolution_total (raw : string) :
  exists mirror,
    convert_to_mirror_image (normalize_image_name raw) = Some mirror.
Proof.
  destruct (convert_to_mirror_image (normalize_image_name raw)) eqn:H; [eauto|].
  apply convert_none_iff in H. rewrite normalize_has_slash in H. discriminate.
Qed.

(** Reads a run off [workflow] once the answers of the machine are known. *)
Ltac read_run :=
  cbv beta iota zeta delta [workflow negb app outcome trace after commands].

Ltac resolve_run Hm := rewrite (accelerate_pull_workflow _ _ _ Hm); read_run.

(** Goes through the lines of an explicit trace: none is an error line. *)
Ltac no_error_line Hin :=
  simpl in Hin;
  repeat (destruct Hin as [Hin|Hin];
          [first [discriminate Hin | injection Hin as <-; reflexivity]|]);
  destruct Hin.

(** For an explicit trace: the pull is in it, and the unsupported-source
    line is not. *)
Ltac never_printed :=
  read_run; split;
  [ simpl; auto 15
  | simpl; intros Hin;
    repeat (destruct Hin as [Hin|Hin]; [discriminate Hin|]);
    destruct Hin ].

Ltac pulled_run Hm Hpull :=
  resolve_run Hm; rewrite Hpull; change (0 =? 0)%Z with true; read_run.

(** [accelerate_pull] catches every exception: it always returns. *)
Lemma accelerate_pull_returns (original : string) (w : World) :
  exists ok, outcome (accelerate_pull os_exec original w) = Return ok.
Proof.
  destruct (resolution_total original) as [mirror Hm]. resolve_run Hm.
  destruct (os_exec _ w) as [[rc out err|msg] w1]; [|eauto].
  destruct (rc =? 0)%Z; [|eauto].
  destruct (os_exec _ w1) as [[rc_tag out_tag err_tag|msg] w2]; [|eauto].
  destruct (String.eqb _ _); [eauto|].
  destruct (os_exec _ w2) as [[rc_rmi out_rmi err_rmi|msg] w3]; eauto.
Qed.

(** C3.  When the pull has succeeded, the next command tags the mirror
    reference as the target, and the target is the input itself if the
    input has a ['/'] and its normal form if it has none; no other tag
    command follows. *)
Theorem tag_target (original mirror : string) (w w1 : World) (out err : string) :
  convert_to_mirror_image (normalize_image_name original) = Some mirror ->
  os_exec ["docker"; "pull"; mirror] w = (Exited 0 out err, w1) ->
  let target :=
    if Py.contains "/" original then original
    else normalize_image_name original in
  exists more,
    commands (trace (accelerate_pull os_exec original w)) =
      ["docker"; "pull"; mirror] :: ["docker"; "tag"; mirror; target] :: more
    /\ (more = [] \/ more = [["docker"; "rmi"; mirror]]).
Proof.
  intros Hm Hpull target. subst target. pulled_run Hm Hpull.
  destruct (os_exec _ w1) as [[rc_tag out_tag err_tag|msg] w2];
    [|eexists; split; [reflexivity | auto]].
  destruct (String.eqb _ _); [eexists; split; [reflexivity | auto]|].
  destruct (os_exec _ w2) as [[rc_rmi out_rmi err_rmi|msg] w3];
    eexists; split; try reflexivity; auto.
Qed.

(** C5.  When the pull exits with a code other than zero,
    [accelerate_pull] returns [False] and the pull is the only command it
    has started: no tag and no removal. *)
Theorem pull_failure_stops
    (original mirror : string) (w w1 : World) (rc : Z) (out err : string) :
  convert_to_mirror_image (normalize_image_name original) = Some mirror ->
  os_exec ["docker"; "pull"; mirror] w = (Exited rc out err, w1) ->
  rc <> 0%Z ->
  let r := accelerate_pull os_exec original w in
  outcome r = Return false /\
  commands (trace r) = [["docker"; "pull"; mirror]] /\
  after r = w1.
Proof.
  intros Hm Hpull Hrc r. subst r. resolve_run Hm. rewrite Hpull.
  apply Z.eqb_neq in Hrc. rewrite Hrc. read_run. auto.
Qed.

(** X15.  A pull that cannot be started (the container runtime is
    missing) ends the run in the same way: [accelerate_pull] returns
    [False] and the pull is the only command it has started. *)
Lemma pull_not_run_stops
    (original mirror : string) (w w1 : World) (msg : string) :
  convert_to_mirror_image (normalize_image_name original) = Some mirror ->
  os_exec ["docker"; "pull"; mirror] w = (NotRun msg, w1) ->
  let r := accelerate_pull os_exec original w in
  outcome r = Return false /\
  commands (trace r) = [["docker"; "pull"; mirror]] /\
  after r = w1.
Proof.
  intros Hm Hpull r. subst r. resolve_run Hm. rewrite Hpull. read_run. auto.
Qed.

(** C6, as the specification has it, fails: a pull that exits with zero is
    not enough.  When the tag command cannot be started, [subprocess.run]
    raises, the [except] clause of [accelerate_pull] prints the exception
    and the run returns [False]. *)
Lemma pull_zero_is_not_enough :
  ~ (forall (os_exec : list string -> nat -> completion * nat)
            (original mirror : string) (w w1 : nat) (out err : string),
        convert_to_mirror_image (normalize_image_name original) = Some mirror ->
        os_exec ["docker"; "pull"; mirror] w = (Exited 0 out err, w1) ->
        outcome (accelerate_pull os_exec original w) = Return true).
Proof.
  intros H.
  specialize (H (scripted vanishing) "nginx:latest"
                "m.daocloud.io/docker.io/library/nginx:latest" 0 1 "" ""
                eq_refl eq_refl).
  discriminate H.
Qed.

(** C6, amended.  When the pull exits with zero, the tag command returns
    an exit code and, if the mirror reference differs from the target, the
    removal returns an exit code, [accelerate_pull] returns [True]
    whatever these two exit codes are; a code other than zero only adds a
    [[WARNING]] line, and no [[ERROR]] line is printed. *)
Theorem pull_success_is_success
    (original mirror : string) (w w1 w2 w3 : World)
    (out err : string) (rc_tag rc_rmi : Z)
    (out_tag err_tag out_rmi err_rmi : string) :
  let target :=
    if Py.contains "/" original then original
    else normalize_image_name original in
  convert_to_mirror_image (normalize_image_name original) = Some mirror ->
  os_exec ["docker"; "pull"; mirror] w = (Exited 0 out err, w1) ->
  os_exec ["docker"; "tag"; mirror; target] w1 =
    (Exited rc_tag out_tag err_tag, w2) ->
  (mirror <> target ->
   os_exec ["docker"; "rmi"; mirror] w2 = (Exited rc_rmi out_rmi err_rmi, w3)) ->
  let r := accelerate_pull os_exec original w in
  outcome r = Return true /\
  (rc_tag <> 0%Z ->
   In (Print ("[WARNING] Rename warning: " +:+ err_tag)) (trace r)) /\
  (mirror <> target -> rc_rmi <> 0%Z ->
   In (Print ("[WARNING] Cleanup warning: " +:+ err_rmi)) (trace r)) /\
  (forall line, In (Print line) (trace r) ->
                Py.startswith "[ERROR]" line = false).
Proof.
  intros target Hm Hpull Htag Hrmi r. subst r target.
  pulled_run Hm Hpull. rewrite Htag. read_run.
  destruct (String.eqb_spec mirror
              (if Py.contains "/" original then original
               else normalize_image_name original)) as [Heq|Hne].
  - read_run. split; [reflexivity|]. split; [|split].
    + intros Hrc. apply Z.eqb_neq in Hrc. rewrite Hrc.
      simpl. auto 15.
    + intros Hne. contradiction.
    + intros line Hin. destruct (rc_tag =? 0)%Z; no_error_line Hin.
  - rewrite (Hrmi Hne). read_run. split; [reflexivity|]. split; [|split].
    + intros Hrc. apply Z.eqb_neq in Hrc. rewrite Hrc.
      simpl. auto 15.
    + intros _ Hrc. apply Z.eqb_neq in Hrc. rewrite Hrc.
      simpl. auto 15.
    + intros line Hin.
      destruct (rc_tag =? 0)%Z; destruct (rc_rmi =? 0)%Z; no_error_line Hin.
Qed.

(** X16.  When the tag cannot even be started, the exception ends the
    run: the removal is not attempted and the run is reported as failed
    although the image was pulled.  This is the case the hypotheses on the
    tag command leave out above and below. *)
Lemma tag_not_run_stops
    (original mirror : string) (w w1 w2 : World) (out err msg : string) :
  let target :=
    if Py.contains "/" original then original
    else normalize_image_name original in
  convert_to_mirror_image (normalize_image_name original) = Some mirror ->
  os_exec ["docker"; "pull"; mirror] w = (Exited 0 out err, w1) ->
  os_exec ["docker"; "tag"; mirror; target] w1 = (NotRun msg, w2) ->
  let r := accelerate_pull os_exec original w in
  outcome r = Return false /\
  commands (trace r) =
    [["docker"; "pull"; mirror]; ["docker"; "tag"; mirror; target]].
Proof.
  intros target Hm Hpull Htag r. subst r target.
  pulled_run Hm Hpull. rewrite Htag. read_run. auto.
Qed.

(** C9, as the specification has it, fails: after a pull that exits with
    zero the mirror reference may differ from the target and yet no
    removal be started, namely when the tag command cannot be started and
    the exception ends the run. *)
Lemma distinct_without_cleanup :
  ~ (forall (os_exec : list string -> nat -> completion * nat)
            (original mirror : string) (w w1 : nat) (out err : string),
        convert_to_mirror_image (normalize_image_name original) = Some mirror ->
        os_exec ["docker"; "pull"; mirror] w = (Exited 0 out err, w1) ->
        (In ["docker"; "rmi"; mirror]
            (commands (trace (accelerate_pull os_exec original w)))
         <-> mirror <>
             (if Py.contains "/" original then original
              else normalize_image_name original))).
Proof.
  intros H.
  specialize (H (scripted vanishing) "nginx:latest"
                "m.daocloud.io/docker.io/library/nginx:latest" 0 1 "" ""
                eq_refl eq_refl).
  destruct H as [_ H].
  assert (Hne : "m.daocloud.io/docker.io/library/nginx:latest"
                <> "docker.io/library/nginx:latest") by discriminate.
  apply H in Hne. clear H.
  assert (Hcmds :
      commands (trace (accelerate_pull (scripted vanishing) "nginx:latest" 0)) =
        [["docker"; "pull"; "m.daocloud.io/docker.io/library/nginx:latest"];
         ["docker"; "tag"; "m.daocloud.io/docker.io/library/nginx:latest";
          "docker.io/library/nginx:latest"]])
    by (vm_compute; reflexivity).
  rewrite Hcmds in Hne.
  destruct Hne as [H | [H | []]]; discriminate H.
Qed.

(** C9, amended.  When the pull has exited with zero and the tag command
    has returned an exit code (any code), the mirror tag is removed
    ([docker rmi] on the mirror reference) if and only if the mirror
    reference differs from the target; if the removal exits with a code
    other than zero, the run still returns [True] and what follows the
    removal is the warning line and the closing line. *)
Theorem cleanup_iff_distinct
    (original mirror : string) (w w1 w2 : World)
    (out err : string) (rc_tag : Z) (out_tag err_tag : string) :
  let target :=
    if Py.contains "/" original then original
    else normalize_image_name original in
  convert_to_mirror_image (normalize_image_name original) = Some mirror ->
  os_exec ["docker"; "pull"; mirror] w = (Exited 0 out err, w1) ->
  os_exec ["docker"; "tag"; mirror; target] w1 =
    (Exited rc_tag out_tag err_tag, w2) ->
  let r := accelerate_pull os_exec original w in
  (In ["docker"; "rmi"; mirror] (commands (trace r)) <-> mirror <> target) /\
  (forall (rc_rmi : Z) (out_rmi err_rmi : string) (w3 : World),
      mirror <> target ->
      os_exec ["docker"; "rmi"; mirror] w2 =
        (Exited rc_rmi out_rmi err_rmi, w3) ->
      rc_rmi <> 0%Z ->
      outcome r = Return true /\
      exists before,
        trace r =
          (before ++
           [Spawn ["docker"; "rmi"; mirror];
            Print ("[WARNING] Cleanup warning: " +:+ err_rmi);
            Print (newline +:+ "[SUCCESS] Image '" +:+ target
                   +:+ "' pulled and configured successfully!")])%list).
Proof.
  intros target Hm Hpull Htag r. subst r target.
  pulled_run Hm Hpull. rewrite Htag. read_run.
  destruct (String.eqb_spec mirror
              (if Py.contains "/" original then original
               else normalize_image_name original)) as [Heq|Hne].
  - read_run. split; [|intros; contradiction].
    split; [|intros; contradiction].
    simpl. intros [H|[H|[]]]; exfalso; discriminate H.
  - split.
    + split; [intros _; exact Hne|]. intros _.
      destruct (os_exec _ w2) as [[rc_rmi out_rmi err_rmi|msg] w3];
        read_run; simpl; auto.
    + intros rc_rmi out_rmi err_rmi w3 _ Hrmi Hrc. rewrite Hrmi. read_run.
      apply Z.eqb_neq in Hrc. rewrite Hrc. split; [reflexivity|].
      eexists (_ :: _ :: _ :: _ :: _ :: _ :: _ :: _ :: _ :: [_]).
      reflexivity.
Qed.

(** C10.  For every input the normal form has a ['/'], so resolution
    returns a mirror reference, which is not the empty string either; a
    run of [accelerate_pull] therefore always reaches the pull and never
    prints the unsupported-source error. *)
Theorem unsupported_unreachable (raw : string) (w : World) :
  Py.contains "/" (normalize_image_name raw) = true /\
  exists mirror,
    convert_to_mirror_image (normalize_image_name raw) = Some mirror /\
    mirror <> EmptyString /\
    let r := accelerate_pull os_exec raw w in
    In (Spawn ["docker"; "pull"; mirror]) (trace r) /\
    ~ In (Print ("[ERROR] Unsupported image source '" +:+ raw +:+ "'"))
         (trace r).
Proof.
  split; [apply normalize_has_slash|].
  destruct (resolution_total raw) as [mirror Hm]. exists mirror.
  split; [exact Hm|]. split; [exact (convert_nonempty _ _ Hm)|].
  resolve_run Hm.
  destruct (os_exec _ w) as [[rc out err|msg] w1]; [|never_printed].
  destruct (rc =? 0)%Z; [|never_printed].
  read_run.
  destruct (os_exec _ w1) as [[rc_tag out_tag err_tag|msg] w2]; [|never_printed].
  destruct (rc_tag =? 0)%Z;
    (destruct (String.eqb _ _); [never_printed|]; read_run;
     destruct (os_exec _ w2) as [[rc_rmi out_rmi err_rmi|msg] w3];
     [destruct (rc_rmi =? 0)%Z|]; never_printed).
Qed.

End Workflow.

(** ** The batch loop and the exit status *)

Lemma count_if_split {A : Type} (p : A -> bool) (l : list A) :
  count_if p l + count_if (fun x => negb (p x)) l = List.length l.
Proof.
  unfold count_if. induction l as [|x l IH]; simpl; [reflexivity|].
  destruct (p x); simpl; lia.
Qed.

Lemma count_if_cons {A : Type} (p : A -> bool) (x : A) (l : list A) :
  count_if p (x :: l) = (if p x then 1 else 0) + count_if p l.
Proof. unfold count_if. simpl. now destruct (p x). Qed.

Lemma count_if_zero {A : Type} (p : A -> bool) (l : list A) :
  count_if p l = 0 <-> forall x, In x l -> p x = false.
Proof.
  unfold count_if. induction l as [|x l IH]; simpl; [tauto|].
  destruct (p x) eqn:Hp; simpl.
  - split; [discriminate|]. intros H. specialize (H x (or_introl eq_refl)).
    congruence.
  - rewrite IH. split.
    + intros H y [<-|Hy]; auto.
    + intros H y Hy. apply H. now right.
Qed.

Lemma commands_app (t t' : list event) :
  commands (t ++ t') = (commands t ++ commands t')%list.
Proof.
  induction t as [|[line|argv] t IH]; cbn [app commands];
    [reflexivity | exact IH | now rewrite IH].
Qed.

Lemma commands_runs {W A : Type} (line : string) (runs : list (run W A)) :
  commands (concat (map (fun r => Print line :: trace r) runs)) =
    concat (map (fun r => commands (trace r)) runs).
Proof.
  induction runs as [|r runs IH]; [reflexivity|].
  cbn [map concat app commands]. now rewrite commands_app, IH.
Qed.

Section Batch.

Context {World : Type}.
Variable os_exec : list string -> World -> completion * World.

(** Every run of a batch is the run of [accelerate_pull] on its image. *)
Lemma batch_runs (images : list string) (w : World) :
  Forall2 (fun image r => exists w0, r = accelerate_pull os_exec image w0)
    images (batch os_exec images w).
Proof.
  revert w. induction images as [|image images IH]; intros w; simpl;
    constructor; eauto.
Qed.

(** The loop of [main] is the batch: it goes through every image, prints
    the rule and then what the run of that image prints, counts the runs
    that succeeded and those that did not, and never raises. *)
Lemma main_loop_batch (images : list string) (s f : nat) (w : World) :
  let runs := batch os_exec images w in
  main_loop os_exec images s f w =
    Run (Return (s + count_if succeeded runs, f + count_if failed runs))
        (concat (map (fun r => Print (newline +:+ rule) :: trace r) runs))
        (after_batch os_exec images w).
Proof.
  revert s f w. induction images as [|image images IH]; intros s f w.
  - simpl. unfold ret, count_if. simpl. now rewrite !Nat.add_0_r.
  - cbn [main_loop batch after_batch map concat].
    destruct (accelerate_pull_returns os_exec image w) as [ok Hok].
    cbv beta iota zeta delta [bind print].
    destruct (accelerate_pull os_exec image w) as [o t w1].
    cbn [outcome trace after] in *. subst o.
    destruct ok; rewrite IH, !count_if_cons;
      cbv beta iota delta [succeeded failed outcome negb];
      do 3 f_equal; lia.
Qed.

(** When every command runs to its end and every pull exits with zero,
    every run of a batch succeeds, whatever the tag and removal commands
    exit with. *)
Lemma batch_succeeds (images : list string) (w : World) :
  (forall argv w0, exists rc out err w0',
      os_exec argv w0 = (Exited rc out err, w0') /\
      (forall mirror, argv = ["docker"; "pull"; mirror] -> rc = 0%Z)) ->
  forall r, In r (batch os_exec images w) -> succeeded r = true.
Proof.
  intros Hos. revert w. induction images as [|image images IH]; intros w r;
    simpl; [tauto|].
  intros [<-|Hin]; [|eauto].
  destruct (resolution_total image) as [mirror Hm].
  unfold succeeded. rewrite (accelerate_pull_workflow _ _ _ _ Hm).
  cbv beta iota zeta delta [workflow].
  destruct (Hos ["docker"; "pull"; mirror] w) as (rc & out & err & w1 & -> & Hrc).
  rewrite (Hrc _ eq_refl). change (0 =? 0)%Z with true. cbn [negb].
  match goal with
  | |- context [os_exec ?argv w1] =>
      destruct (Hos argv w1) as (rc_tag & out_tag & err_tag & w2 & -> & _)
  end.
  destruct (String.eqb _ _); [reflexivity|].
  destruct (Hos ["docker"; "rmi"; mirror] w2)
    as (rc_rmi & out_rmi & err_rmi & w3 & -> & _).
  reflexivity.
Qed.

(** C7.  For a batch of one or more images: every image gets its own run
    of [accelerate_pull], in order and whether or not an earlier one
    failed, and the commands of [main] are those of these runs; the two
    counts of the summary line add up to the number of images; [main]
    exits with 0 if every run succeeded and with 1 if one failed; and when
    every pull exits with zero, the exit status is 0 whatever the tag and
    removal commands exit with. *)
Theorem main_exit_status (prog : string) (images : list string) (w : World) :
  images <> [] ->
  let runs := batch os_exec images w in
  let success_count := count_if succeeded runs in
  let failed_count := count_if failed runs in
  let r := main os_exec (prog :: images) w in
  Forall2 (fun image run => exists w0, run = accelerate_pull os_exec image w0)
    images runs /\
  commands (trace r) = concat (map (fun run => commands (trace run)) runs) /\
  success_count + failed_count = List.length images /\
  In (Print (summary_line success_count failed_count)) (trace r) /\
  (exists code,
      outcome r = Return code /\
      (code = 0%Z \/ code = 1%Z) /\
      (code <> 0%Z <-> exists run, In run runs /\ failed run = true) /\
      (code = 0%Z <-> forall run, In run runs -> succeeded run = true)) /\
  ((forall argv w0, exists rc out err w0',
       os_exec argv w0 = (Exited rc out err, w0') /\
       (forall mirror, argv = ["docker"; "pull"; mirror] -> rc = 0%Z)) ->
   outcome r = Return 0%Z).
Proof.
  intros Hne runs success_count failed_count r.
  assert (Hlen : List.length runs = List.length images).
  { pose proof (batch_runs images w) as H.
    symmetry. exact (Forall2_length _ _ _ H). }
  assert (Hr : r = Run (Return (if (failed_count =? 0)%nat then 0%Z else 1%Z))
                 ([Print rule; Print "[INFO] Docker Image Accelerator";
                   Print "[INFO] Using DaoCloud mirror for acceleration";
                   Print rule; Print ""]
                  ++ concat (map (fun r => Print (newline +:+ rule) :: trace r) runs)
                  ++ [Print (newline +:+ rule);
                      Print (summary_line success_count failed_count);
                      Print (rule +:+ newline)])%list
                 (after_batch os_exec images w)).
  { subst r. unfold main. destruct images as [|image images]; [congruence|].
    cbn [List.length Nat.ltb Nat.leb drop].
    cbv beta iota zeta delta [bind print ret].
    rewrite main_loop_batch. reflexivity. }
  assert (Hzero : failed_count = 0 <->
                  forall run, In run runs -> succeeded run = true).
  { unfold failed_count. rewrite count_if_zero. unfold failed.
    split; intros H run Hin; specialize (H run Hin);
      destruct (succeeded run); auto; discriminate. }
  split; [apply batch_runs|]. split; [|split; [|split; [|split]]].
  - rewrite Hr. cbn [trace]. rewrite !commands_app, commands_runs.
    cbn [commands app]. apply app_nil_r.
  - rewrite <- Hlen. apply count_if_split.
  - rewrite Hr. cbn [trace]. rewrite !in_app_iff. right. right.
    simpl. auto.
  - rewrite Hr. cbn [outcome]. eexists. split; [reflexivity|].
    destruct (Nat.eqb_spec failed_count 0) as [E|E].
    + split; [auto|]. split.
      * split; [congruence|]. intros (run & Hin & Hf).
        pose proof (proj1 Hzero E run Hin) as Hs. unfold failed in Hf.
        rewrite Hs in Hf. discriminate.
      * split; [intros _; exact (proj1 Hzero E) | reflexivity].
    + split; [auto|]. split.
      * split; [|discriminate]. intros _.
        destruct (existsb failed runs) eqn:Hex.
        -- apply existsb_exists in Hex. exact Hex.
        -- exfalso. apply E. apply count_if_zero. intros run Hin.
           destruct (failed run) eqn:Hf; [|reflexivity].
           assert (existsb failed runs = true)
             by (apply existsb_exists; eauto).
           congruence.
      * split; [discriminate|]. intros H. elim E. exact (proj2 Hzero H).
  - intros Hos. rewrite Hr. cbn [outcome].
    replace failed_count with 0; [reflexivity|].
    symmetry. apply (proj2 Hzero). now apply batch_succeeds.
Qed.

End Batch.

(** ** The workflow on scripted runtimes *)

(** The first end-to-end scenario of the specification. *)
Example scenario_python :
  accelerate_pull (scripted obliging) "python:3.9-slim" 0 =
    Run (Return true)
      [Print "[INFO] Original image: python:3.9-slim";
       Print "[INFO] Normalized: docker.io/library/python:3.9-slim";
       Print "[INFO] Mirror image: m.daocloud.io/docker.io/library/python:3.9-slim";
       Print "[INFO] Pulling image: m.daocloud.io/docker.io/library/python:3.9-slim";
       Spawn ["docker"; "pull"; "m.daocloud.io/docker.io/library/python:3.9-slim"];
       Print "[SUCCESS] Pull completed";
       Print ("[INFO] Tagging: m.daocloud.io/docker.io/library/python:3.9-slim"
              +:+ " -> docker.io/library/python:3.9-slim");
       Spawn ["docker"; "tag";
              "m.daocloud.io/docker.io/library/python:3.9-slim";
              "docker.io/library/python:3.9-slim"];
       Print "[SUCCESS] Rename completed";
       Print "[INFO] Removing mirror tag: m.daocloud.io/docker.io/library/python:3.9-slim";
       Spawn ["docker"; "rmi"; "m.daocloud.io/docker.io/library/python:3.9-slim"];
       Print "[SUCCESS] Cleanup completed";
       Print (newline +:+ "[SUCCESS] Image 'docker.io/library/python:3.9-slim'"
              +:+ " pulled and configured successfully!")]
      3.
Proof. vm_compute. reflexivity. Qed.

(** The second one: the input has a ['/'] and is tagged back as it is. *)
Example scenario_ghcr :
  commands (trace (accelerate_pull (scripted obliging)
                     "ghcr.io/actions/runner:latest" 0)) =
    [["docker"; "pull"; "m.daocloud.io/ghcr.io/actions/runner:latest"];
     ["docker"; "tag"; "m.daocloud.io/ghcr.io/actions/runner:latest";
      "ghcr.io/actions/runner:latest"];
     ["docker"; "rmi"; "m.daocloud.io/ghcr.io/actions/runner:latest"]].
Proof. vm_compute. reflexivity. Qed.

(** An input that is already a mirror reference is its own mirror and its
    own target: nothing is removed. *)
Example scenario_already_mirrored :
  commands (trace (accelerate_pull (scripted obliging) "m.daocloud.io/foo" 0)) =
    [["docker"; "pull"; "m.daocloud.io/foo"];
     ["docker"; "tag"; "m.daocloud.io/foo"; "m.daocloud.io/foo"]].
Proof. vm_compute. reflexivity. Qed.

(** With no image on the command line, [main] prints the usage text and
    exits with 1 without starting a command. *)
Example main_usage :
  let r := main (scripted obliging) ["accelerate_docker_pull.py"] 0 in
  outcome r = Return 1%Z /\ commands (trace r) = [] /\ after r = 0.
Proof. vm_compute. auto. Qed.

Lemma tag_target_witness :
  convert_to_mirror_image (normalize_image_name "nginx:latest") =
    Some "m.daocloud.io/docker.io/library/nginx:latest" /\
  exists more,
    commands (trace (accelerate_pull (scripted grumpy) "nginx:latest" 0)) =
      ["docker"; "pull"; "m.daocloud.io/docker.io/library/nginx:latest"]
      :: ["docker"; "tag"; "m.daocloud.io/docker.io/library/nginx:latest";
          "docker.io/library/nginx:latest"]
      :: more
    /\ (more = [] \/
        more = [["docker"; "rmi"; "m.daocloud.io/docker.io/library/nginx:latest"]]).
Proof.
  split; [reflexivity|].
  exact (tag_target (scripted grumpy) "nginx:latest"
           "m.daocloud.io/docker.io/library/nginx:latest" 0 1 "" ""
           eq_refl eq_refl).
Defined.

Lemma pull_failure_stops_witness :
  scripted grumpy ["docker"; "pull"; "m.daocloud.io/docker.io/library/missing"] 0
    = (Exited 1 "" "manifest unknown", 1) /\
  outcome (accelerate_pull (scripted grumpy) "missing" 0) = Return false /\
  commands (trace (accelerate_pull (scripted grumpy) "missing" 0)) =
    [["docker"; "pull"; "m.daocloud.io/docker.io/library/missing"]] /\
  after (accelerate_pull (scripted grumpy) "missing" 0) = 1.
Proof.
  split; [reflexivity|].
  apply (pull_failure_stops (scripted grumpy) "missing"
           "m.daocloud.io/docker.io/library/missing" 0 1 1
           "" "manifest unknown");
    [reflexivity | reflexivity | discriminate].
Defined.

Lemma pull_success_is_success_witness :
  scripted grumpy
    ["docker"; "tag"; "m.daocloud.io/docker.io/library/nginx:latest";
     "docker.io/library/nginx:latest"] 1 = (Exited 1 "" "cannot tag", 2) /\
  scripted grumpy
    ["docker"; "rmi"; "m.daocloud.io/docker.io/library/nginx:latest"] 2
    = (Exited 1 "" "cannot remove", 3) /\
  outcome (accelerate_pull (scripted grumpy) "nginx:latest" 0) = Return true.
Proof.
  split; [reflexivity|]. split; [reflexivity|].
  apply (pull_success_is_success (scripted grumpy) "nginx:latest"
           "m.daocloud.io/docker.io/library/nginx:latest" 0 1 2 3
           "" "" 1 1 "" "cannot tag" "" "cannot remove");
    reflexivity.
Defined.

Lemma cleanup_iff_distinct_witness :
  (In ["docker"; "rmi"; "m.daocloud.io/docker.io/library/nginx:latest"]
      (commands (trace (accelerate_pull (scripted grumpy) "nginx:latest" 0)))
   <-> "m.daocloud.io/docker.io/library/nginx:latest"
       <> "docker.io/library/nginx:latest") /\
  (In ["docker"; "rmi"; "m.daocloud.io/foo"]
      (commands (trace (accelerate_pull (scripted grumpy) "m.daocloud.io/foo" 0)))
   <-> "m.daocloud.io/foo" <> "m.daocloud.io/foo").
Proof.
  split.
  - exact (proj1 (cleanup_iff_distinct (scripted grumpy) "nginx:latest"
                    "m.daocloud.io/docker.io/library/nginx:latest" 0 1 2
                    "" "" 1 "" "cannot tag" eq_refl eq_refl eq_refl)).
  - exact (proj1 (cleanup_iff_distinct (scripted grumpy) "m.daocloud.io/foo"
                    "m.daocloud.io/foo" 0 1 2
                    "" "" 1 "" "cannot tag" eq_refl eq_refl eq_refl)).
Defined.

Lemma main_exit_status_witness :
  ["missing"; "nginx:latest"] <> [] /\
  In (Print "[SUMMARY] Success: 1, Failed: 1")
     (trace (main (scripted grumpy)
               ["accelerate_docker_pull.py"; "missing"; "nginx:latest"] 0)) /\
  commands (trace (main (scripted grumpy)
                     ["accelerate_docker_pull.py"; "missing"; "nginx:latest"] 0)) =
    [["docker"; "pull"; "m.daocloud.io/docker.io/library/missing"];
     ["docker"; "pull"; "m.daocloud.io/docker.io/library/nginx:latest"];
     ["docker"; "tag"; "m.daocloud.io/docker.io/library/nginx:latest";
      "docker.io/library/nginx:latest"];
     ["docker"; "rmi"; "m.daocloud.io/docker.io/library/nginx:latest"]].
Proof.
  assert (Hne : ["missing"; "nginx:latest"] <> []) by discriminate.
  split; [exact Hne|].
  pose proof (main_exit_status (scripted grumpy) "accelerate_docker_pull.py"
                ["missing"; "nginx:latest"] 0 Hne) as H.
  split; [exact (proj1 (proj2 (proj2 (proj2 H)))) | exact (proj1 (proj2 H))].
Defined.

(** The batch of the witness exits with 1, and with 0 without [missing]
    although tagging and removing fail. *)
Example main_exit_codes :
  outcome (main (scripted grumpy)
             ["accelerate_docker_pull.py"; "missing"; "nginx:latest"] 0)
    = Return 1%Z /\
  outcome (main (scripted grumpy)
             ["accelerate_docker_pull.py"; "redis:7"; "nginx:latest"] 0)
    = Return 0%Z.
Proof. vm_compute. auto. Qed.

(** When the runtime disappears after the pull, the tag raises, nothing is
    removed and the image is counted as failed. *)
Example tag_not_run_example :
  let r := accelerate_pull (scripted vanishing) "nginx:latest" 0 in
  outcome r = Return false /\
  commands (trace r) =
    [["docker"; "pull"; "m.daocloud.io/docker.io/library/nginx:latest"];
     ["docker"; "tag"; "m.daocloud.io/docker.io/library/nginx:latest";
      "docker.io/library/nginx:latest"]].
Proof. vm_compute. auto. Qed.

(** ** Further properties of normalization and resolution *)

(** X1.  Normalization is idempotent: a normal form is its own normal
    form. *)
Theorem normalize_idempotent (raw : string) :
  normalize_image_name (normalize_image_name raw) = normalize_image_name raw.
Proof.
  destruct (normalize_cases raw) as [E | [H [E | E]]]; rewrite E.
  - rewrite normalize_slash by reflexivity. reflexivity.
  - assert (Hs : Py.contains "/" ("docker.io/" +:+ raw) = true) by reflexivity.
    rewrite (normalize_slash _ Hs).
    apply contains_count_pos in H.
    replace (Py.count "/" ("docker.io/" +:+ raw)) with (S (Py.count "/" raw))
      by reflexivity.
    destruct (Py.count "/" raw); [lia | reflexivity].
  - exact E.
Qed.

(** X2.  The three spellings of an official image, [name],
    ['library/' + name] and ['docker.io/library/' + name], have the same
    normal form. *)
Theorem official_spellings_agree (name : string) :
  Py.contains "/" name = false ->
  normalize_image_name ("library/" +:+ name) = normalize_image_name name /\
  normalize_image_name ("docker.io/library/" +:+ name) =
    normalize_image_name name.
Proof.
  intros H. rewrite (normalize_no_slash _ H).
  pose proof (proj1 (contains_count "/" name) H) as Hc.
  split.
  - rewrite normalize_slash by reflexivity.
    replace (Py.count "/" ("library/" +:+ name)) with (S (Py.count "/" name))
      by reflexivity.
    rewrite Hc.
    change ("library/" +:+ name) with ("library" +:+ String "/" name).
    rewrite first_segment_app by reflexivity. reflexivity.
  - rewrite normalize_slash by reflexivity.
    replace (Py.count "/" ("docker.io/library/" +:+ name))
      with (S (S (Py.count "/" name))) by reflexivity.
    reflexivity.
Qed.

Lemma official_spellings_agree_witness :
  normalize_image_name "library/nginx:latest" =
    normalize_image_name "nginx:latest" /\
  normalize_image_name "docker.io/library/nginx:latest" =
    normalize_image_name "nginx:latest".
Proof. exact (official_spellings_agree "nginx:latest" eq_refl). Defined.

(** Every key of the table is a hostname: it has a ['.'] and no ['/']. *)
Lemma registry_keys_are_hosts (registry mirror_registry : string) :
  REGISTRY_MIRRORS !! registry = Some mirror_registry ->
  Py.contains "/" registry = false /\ Py.contains "." registry = true.
Proof.
  intros H. apply elem_of_list_to_map_2 in H.
  repeat (apply elem_of_cons in H as [H | H];
          [injection H as -> ->; split; reflexivity|]).
  inversion H.
Qed.

(** X3.  A reference on a registry of the table is left alone by
    normalization and resolves to the registry's mirror prefix followed by
    the same repository path. *)
Theorem known_registry_mirror (registry mirror_registry rest : string) :
  REGISTRY_MIRRORS !! registry = Some mirror_registry ->
  rest <> EmptyString ->
  normalize_image_name (registry +:+ "/" +:+ rest) = registry +:+ "/" +:+ rest /\
  convert_to_mirror_image (normalize_image_name (registry +:+ "/" +:+ rest)) =
    Some (mirror_registry +:+ "/" +:+ rest).
Proof.
  intros Hkey Hrest.
  destruct (registry_keys_are_hosts _ _ Hkey) as [Hslash Hdot].
  change ("/" +:+ rest) with (String "/" rest).
  assert (Hn : normalize_image_name (registry +:+ String "/" rest) =
               registry +:+ String "/" rest).
  { rewrite normalize_slash.
    - rewrite (first_segment_app _ _ _ Hslash), Hdot. simpl.
      now rewrite andb_false_r.
    - rewrite contains_app. simpl. apply orb_true_r. }
  split; [exact Hn|]. rewrite Hn, (convert_cut _ _ Hslash), Hkey.
  destruct rest; [congruence | reflexivity].
Qed.

Lemma known_registry_mirror_witness :
  normalize_image_name "quay.io/coreos/etcd:v3" = "quay.io/coreos/etcd:v3" /\
  convert_to_mirror_image (normalize_image_name "quay.io/coreos/etcd:v3") =
    Some "m.daocloud.io/quay.io/coreos/etcd:v3".
Proof.
  assert (Hne : forall c s, String c s <> EmptyString) by discriminate.
  exact (known_registry_mirror "quay.io" "m.daocloud.io/quay.io"
           "coreos/etcd:v3" eq_refl (Hne _ _)).
Defined.

(** X4.  Docker Hub short forms go to the [docker.io] mirror: a name
    without ['/'] resolves under ['m.daocloud.io/docker.io/library/'], a
    [user/repository] whose first segment has neither ['.'] nor [':']
    under ['m.daocloud.io/docker.io/']. *)
Theorem docker_hub_mirror (raw : string) :
  (Py.contains "/" raw = false ->
   convert_to_mirror_image (normalize_image_name raw) =
     Some ("m.daocloud.io/docker.io/library/" +:+ raw)) /\
  (Py.count "/" raw = 1 ->
   Py.contains "." (Py.first_segment "/" raw) = false ->
   Py.contains ":" (Py.first_segment "/" raw) = false ->
   convert_to_mirror_image (normalize_image_name raw) =
     Some ("m.daocloud.io/docker.io/" +:+ raw)).
Proof.
  split.
  - intros H. rewrite (normalize_no_slash _ H).
    change ("docker.io/library/" +:+ raw)
      with ("docker.io" +:+ String "/" ("library/" +:+ raw)).
    rewrite convert_cut by reflexivity. reflexivity.
  - intros Hc Hdot Hcolon.
    assert (H : Py.contains "/" raw = true)
      by (apply contains_count_pos; lia).
    rewrite (normalize_slash _ H), Hc, Hdot, Hcolon. simpl.
    change ("docker.io/" +:+ raw) with ("docker.io" +:+ String "/" raw).
    rewrite convert_cut by reflexivity.
    destruct raw; [discriminate H | reflexivity].
Qed.

Lemma docker_hub_mirror_witness :
  convert_to_mirror_image (normalize_image_name "redis:7") =
    Some "m.daocloud.io/docker.io/library/redis:7" /\
  convert_to_mirror_image (normalize_image_name "bitnami/redis:7") =
    Some "m.daocloud.io/docker.io/bitnami/redis:7".
Proof.
  split.
  - exact (proj1 (docker_hub_mirror "redis:7") eq_refl).
  - exact (proj2 (docker_hub_mirror "bitnami/redis:7") eq_refl eq_refl eq_refl).
Defined.

Lemma append_empty_r (s : string) : s +:+ "" = s.
Proof.
  induction s as [|x s IH]; [reflexivity|].
  change (String x (s +:+ "") = String x s). now rewrite IH.
Qed.

Lemma append_assoc (a b c : string) : (a +:+ b) +:+ c = a +:+ (b +:+ c).
Proof.
  induction a as [|x a IH]; [reflexivity|].
  change (String x ((a +:+ b) +:+ c) = String x (a +:+ (b +:+ c))).
  now rewrite IH.
Qed.

(** A string is cut at its first [sep] in one way only. *)
Lemma cut_unique (sep : ascii) (a a' b b' : string) :
  Py.contains sep a = false -> Py.contains sep a' = false ->
  a +:+ String sep b = a' +:+ String sep b' -> a = a' /\ b = b'.
Proof.
  intros Ha Ha' E.
  assert (Eq : a = a').
  { rewrite <- (first_segment_app sep a b Ha),
            <- (first_segment_app sep a' b' Ha'). now rewrite E. }
  subst a'. split; [reflexivity|].
  apply (String.app_inj a) in E. now injection E.
Qed.

(** X5.  Resolution keeps the repository path and puts the reference
    under the accelerator: the result is a prefix that begins with
    ['m.daocloud.io/'] followed by everything after the first ['/'] of the
    input, untouched. *)
Theorem convert_keeps_path (registry rest mirror : string) :
  Py.contains "/" registry = false ->
  convert_to_mirror_image (registry +:+ "/" +:+ rest) = Some mirror ->
  exists prefix,
    mirror = prefix +:+ rest /\
    Py.startswith "m.daocloud.io/" prefix = true.
Proof.
  intros Hreg. change ("/" +:+ rest) with (String "/" rest).
  rewrite (convert_cut _ _ Hreg).
  destruct (REGISTRY_MIRRORS !! registry) as [p|] eqn:Hkey.
  - destruct (mirror_prefix_under_accelerator _ _ Hkey) as [r ->].
    destruct rest as [|x rest]; intros [= <-].
    + eexists. split; [symmetry; apply append_empty_r | apply startswith_app].
    + exists (accelerator_prefix +:+ r +:+ "/"). split.
      * now rewrite !append_assoc.
      * apply startswith_app.
  - destruct (Py.startswith _ _) eqn:Hs; intros [= <-].
    + destruct (startswith_inv _ _ Hs) as [r Hr].
      change (accelerator_prefix +:+ r) with ("m.daocloud.io" +:+ String "/" r)
        in Hr.
      apply cut_unique in Hr as [-> ->]; [|exact Hreg | reflexivity].
      exists "m.daocloud.io/". split; reflexivity.
    + exists (accelerator_prefix +:+ registry +:+ "/"). split.
      * now rewrite !append_assoc.
      * apply startswith_app.
Qed.

Lemma convert_keeps_path_witness :
  exists prefix,
    "m.daocloud.io/example.com/team/app:1.2" = prefix +:+ "team/app:1.2" /\
    Py.startswith "m.daocloud.io/" prefix = true.
Proof.
  exact (convert_keeps_path "example.com" "team/app:1.2"
           "m.daocloud.io/example.com/team/app:1.2" eq_refl eq_refl).
Defined.



(** ** Further properties of the workflow *)

Section WorkflowFacts.

Context {World : Type}.
Variable os_exec : list string -> World -> completion * World.

Ltac spell := cbv beta iota zeta delta [workflow negb app outcome trace after commands].

(** The commands of a run: the pull, then the tag if the pull exited with
    zero, then the removal if the tag ran and the two references differ. *)
Lemma run_commands (original mirror : string) (w : World) :
  convert_to_mirror_image (normalize_image_name original) = Some mirror ->
  let target :=
    if Py.contains "/" original then original
    else normalize_image_name original in
  let cmds := commands (trace (accelerate_pull os_exec original w)) in
  cmds = [["docker"; "pull"; mirror]] \/
  cmds = [["docker"; "pull"; mirror]; ["docker"; "tag"; mirror; target]] \/
  (mirror <> target /\
   cmds = [["docker"; "pull"; mirror]; ["docker"; "tag"; mirror; target];
           ["docker"; "rmi"; mirror]]).
Proof.
  intros Hm target cmds. subst target cmds.
  rewrite (accelerate_pull_workflow _ _ _ _ Hm). spell.
  destruct (os_exec _ w) as [[rc out err|msg] w1]; [|now left].
  destruct (rc =? 0)%Z; [|now left].
  destruct (os_exec _ w1) as [[rc_tag out_tag err_tag|msg] w2];
    [|right; now left].
  destruct (String.eqb_spec mirror
              (if Py.contains "/" original then original
               else normalize_image_name original)) as [E|E];
    [right; now left|].
  right. right. split; [exact E|].
  now destruct (os_exec _ w2) as [[rc_rmi out_rmi err_rmi|msg] w3].
Qed.

(** X8.  Whatever the machine answers, a run starts one, two or three
    commands and no other: the pull of the mirror reference, then possibly
    the tag of the mirror reference as the target, then possibly the
    removal of the mirror reference, which is then not the target.  The
    target always has a ['/'] and the mirror reference always begins with
    ['m.daocloud.io/']. *)
Theorem commands_shape (original : string) (w : World) :
  exists mirror,
    convert_to_mirror_image (normalize_image_name original) = Some mirror /\
    Py.startswith "m.daocloud.io/" mirror = true /\
    let target :=
      if Py.contains "/" original then original
      else normalize_image_name original in
    Py.contains "/" target = true /\
    let cmds := commands (trace (accelerate_pull os_exec original w)) in
    cmds = [["docker"; "pull"; mirror]] \/
    cmds = [["docker"; "pull"; mirror]; ["docker"; "tag"; mirror; target]] \/
    (mirror <> target /\
     cmds = [["docker"; "pull"; mirror]; ["docker"; "tag"; mirror; target];
             ["docker"; "rmi"; mirror]]).
Proof.
  destruct (resolution_total original) as [mirror Hm]. exists mirror.
  split; [exact Hm|]. split.
  { destruct (convert_under_accelerator _ _ Hm) as [r ->].
    apply startswith_app. }
  split; [|exact (run_commands original mirror w Hm)].
  destruct (Py.contains "/" original) eqn:H;
    [exact H | apply normalize_has_slash].
Qed.

(** X9.  A run returns [True] exactly when the pull exited with zero, the
    tag command ran (with any exit code) and, if the mirror reference
    differs from the target, the removal ran (with any exit code). *)
Theorem success_iff (original mirror : string) (w : World) :
  convert_to_mirror_image (normalize_image_name original) = Some mirror ->
  let target :=
    if Py.contains "/" original then original
    else normalize_image_name original in
  outcome (accelerate_pull os_exec original w) = Return true <->
  exists out err w1 rc_tag out_tag err_tag w2,
    os_exec ["docker"; "pull"; mirror] w = (Exited 0 out err, w1) /\
    os_exec ["docker"; "tag"; mirror; target] w1 =
      (Exited rc_tag out_tag err_tag, w2) /\
    (mirror = target \/
     exists rc_rmi out_rmi err_rmi w3,
       os_exec ["docker"; "rmi"; mirror] w2 =
         (Exited rc_rmi out_rmi err_rmi, w3)).
Proof.
  intros Hm target. subst target.
  rewrite (accelerate_pull_workflow _ _ _ _ Hm). spell.
  destruct (os_exec _ w) as [[rc out err|msg] w1].
  2:{ split; [discriminate|]. intros (? & ? & ? & ? & ? & ? & ? & H & _).
      discriminate H. }
  destruct (Z.eqb_spec rc 0) as [->|Hrc].
  2:{ split; [discriminate|]. intros (? & ? & ? & ? & ? & ? & ? & H & _).
      injection H as -> _ _ _. contradiction. }
  destruct (os_exec _ w1) as [[rc_tag out_tag err_tag|msg] w2] eqn:Htag.
  2:{ split; [discriminate|].
      intros (? & ? & ? & ? & ? & ? & ? & H & H' & _).
      injection H as _ _ <-. rewrite Htag in H'. discriminate H'. }
  destruct (String.eqb_spec mirror
              (if Py.contains "/" original then original
               else normalize_image_name original)) as [E|E].
  { split; [|reflexivity]. intros _.
    exists out, err, w1, rc_tag, out_tag, err_tag, w2. auto. }
  destruct (os_exec _ w2) as [[rc_rmi out_rmi err_rmi|msg] w3] eqn:Hrmi.
  - split; [|reflexivity]. intros _.
    exists out, err, w1, rc_tag, out_tag, err_tag, w2.
    split; [reflexivity|]. split; [exact Htag|]. right. eauto.
  - split; [discriminate|].
    intros (? & ? & ? & ? & ? & ? & ? & H & H' & [H''|H'']).
    + contradiction.
    + injection H as _ _ <-. rewrite Htag in H'. injection H' as _ _ _ <-.
      destruct H'' as (? & ? & ? & ? & H''). rewrite Hrmi in H''.
      discriminate H''.
Qed.

(** X10.  When the removal cannot be started, the exception ends the run:
    it is reported as failed although the image was pulled and the tag
    command ran, and the exception line is the last one printed. *)
Theorem rmi_not_run_fails
    (original mirror : string) (w w1 w2 w3 : World)
    (out err : string) (rc_tag : Z) (out_tag err_tag msg : string) :
  let target :=
    if Py.contains "/" original then original
    else normalize_image_name original in
  convert_to_mirror_image (normalize_image_name original) = Some mirror ->
  mirror <> target ->
  os_exec ["docker"; "pull"; mirror] w = (Exited 0 out err, w1) ->
  os_exec ["docker"; "tag"; mirror; target] w1 =
    (Exited rc_tag out_tag err_tag, w2) ->
  os_exec ["docker"; "rmi"; mirror] w2 = (NotRun msg, w3) ->
  let r := accelerate_pull os_exec original w in
  outcome r = Return false /\
  exists before,
    trace r =
      (before ++ [Spawn ["docker"; "rmi"; mirror];
                  Print ("[ERROR] Exception occurred: " +:+ msg)])%list.
Proof.
  intros target Hm Hne Hpull Htag Hrmi r. subst r target.
  rewrite (accelerate_pull_workflow _ _ _ _ Hm). spell.
  rewrite Hpull. change (0 =? 0)%Z with true. spell. rewrite Htag. spell.
  apply String.eqb_neq in Hne. rewrite Hne, Hrmi. spell.
  split; [reflexivity|].
  eexists (_ :: _ :: _ :: _ :: _ :: _ :: _ :: _ :: _ :: [_]). reflexivity.
Qed.

End WorkflowFacts.

(** ** Further properties of [main] *)

Section MainFacts.

Context {World : Type}.
Variable os_exec : list string -> World -> completion * World.

(** With an image on the command line [main] is the batch between its
    banner and its summary. *)
Lemma main_batch_run (prog image : string) (images : list string) (w : World) :
  let runs := batch os_exec (image :: images) w in
  main os_exec (prog :: image :: images) w =
    Run (Return (if (count_if failed runs =? 0)%nat then 0%Z else 1%Z))
      ([Print rule; Print "[INFO] Docker Image Accelerator";
        Print "[INFO] Using DaoCloud mirror for acceleration";
        Print rule; Print ""]
       ++ concat (map (fun r => Print (newline +:+ rule) :: trace r) runs)
       ++ [Print (newline +:+ rule);
           Print (summary_line (count_if succeeded runs) (count_if failed runs));
           Print (rule +:+ newline)])%list
      (after_batch os_exec (image :: images) w).
Proof.
  intros runs. subst runs. unfold main.
  cbn [List.length Nat.ltb Nat.leb drop].
  cbv beta iota zeta delta [bind print ret].
  rewrite main_loop_batch. reflexivity.
Qed.

(** The commands of [main] are those of the runs of its images. *)
Lemma main_commands (argv : list string) (w : World) :
  commands (trace (main os_exec argv w)) =
    concat (map (fun r => commands (trace r)) (batch os_exec (drop 1 argv) w)).
Proof.
  destruct argv as [|prog [|image images]]; [reflexivity | reflexivity|].
  rewrite main_batch_run. cbn [trace drop].
  rewrite !commands_app, commands_runs. cbn [commands app]. apply app_nil_r.
Qed.

(** The pull of a run is its only [docker pull]. *)
Lemma run_pull (image : string) (w : World) :
  exists mirror,
    convert_to_mirror_image (normalize_image_name image) = Some mirror /\
    List.filter is_pull (commands (trace (accelerate_pull os_exec image w))) =
      [["docker"; "pull"; mirror]].
Proof.
  destruct (resolution_total image) as [mirror Hm]. exists mirror.
  split; [exact Hm|].
  destruct (run_commands os_exec image mirror w Hm) as [-> | [-> | [_ ->]]];
    reflexivity.
Qed.

(** X12.  [main] pulls every image of the command line exactly once, in
    the order of the command line, whether or not earlier images failed:
    its [docker pull] commands are those of the mirror references of its
    images. *)
Theorem one_pull_per_image (argv : list string) (w : World) :
  Forall2
    (fun image cmd =>
       exists mirror,
         convert_to_mirror_image (normalize_image_name image) = Some mirror /\
         cmd = ["docker"; "pull"; mirror])
    (drop 1 argv)
    (List.filter is_pull (commands (trace (main os_exec argv w)))).
Proof.
  rewrite main_commands. generalize (drop 1 argv) as images. clear argv.
  intros images. revert w.
  induction images as [|image images IH]; intros w; [constructor|].
  cbn [batch map concat]. rewrite List.filter_app.
  destruct (run_pull image w) as (mirror & Hm & ->).
  constructor; [eauto | apply IH].
Qed.

(** X13.  Every command [main] starts is a [docker pull], [docker tag] or
    [docker rmi] on a reference that begins with ['m.daocloud.io/']:
    nothing is pulled from, or removed under, another name.  There are at
    most three commands per image. *)
Theorem main_commands_on_mirror (argv : list string) (w : World) :
  Forall on_mirror (commands (trace (main os_exec argv w))) /\
  List.length (commands (trace (main os_exec argv w)))
    <= 3 * List.length (drop 1 argv).
Proof.
  rewrite main_commands. generalize (drop 1 argv) as images. clear argv.
  intros images. revert w.
  induction images as [|image images IH]; intros w;
    [split; [constructor | simpl; lia]|].
  cbn [batch map concat]. destruct (IH (after (accelerate_pull os_exec image w)))
    as [IHf IHl].
  destruct (resolution_total image) as [mirror Hm].
  assert (Hp : Py.startswith accelerator_prefix mirror = true).
  { destruct (convert_under_accelerator _ _ Hm) as [r ->].
    apply startswith_app. }
  assert (Hpull : on_mirror ["docker"; "pull"; mirror])
    by (exists mirror; auto).
  assert (Htag : forall target, on_mirror ["docker"; "tag"; mirror; target])
    by (intros target; exists mirror; eauto).
  assert (Hrmi : on_mirror ["docker"; "rmi"; mirror])
    by (exists mirror; auto).
  rewrite Forall_app, List.length_app.
  destruct (run_commands os_exec image mirror w Hm) as [-> | [-> | [_ ->]]];
    (split; [split; [repeat constructor; auto | exact IHf] | simpl; lia]).
Qed.

End MainFacts.

(** ** The conversion test *)

Section TestFacts.

Context {World : Type}.

(** X14.  The test reports success exactly when the flag it starts from
    is set and every row has the expected normal form and, for that normal
    form, the expected mirror reference: a failing row is not masked by
    the rows after it.  On the rows of the script it succeeds, so the
    script exits with 0; it starts no command. *)
Theorem test_conversion_sound
    (cases : list (string * string * string)) (i : nat) (all_passed : bool)
    (w : World) :
  outcome (test_loop cases i all_passed w) =
    Return (all_passed &&
            forallb (fun '(input, expected_normalized, expected_mirror) =>
                       String.eqb (normalize_image_name input) expected_normalized
                       && optional_eqb
                            (convert_to_mirror_image (normalize_image_name input))
                            expected_mirror)
                    cases) /\
  outcome (test_conversion w) = Return true /\
  outcome (test_conversion_exit w) = Return 0%Z /\
  commands (trace (test_conversion w)) = [].
Proof.
  split; [|repeat split].
  revert i all_passed w.
  induction cases as [|[[input expected_normalized] expected_mirror] cases IH];
    intros i all_passed w.
  - simpl. now rewrite andb_true_r.
  - cbn [test_loop forallb].
    cbv beta iota zeta delta [bind print].
    specialize (IH (S i)
      (if negb (String.eqb (normalize_image_name input) expected_normalized
                && optional_eqb
                     (convert_to_mirror_image (normalize_image_name input))
                     expected_mirror)
       then false else all_passed) w).
    destruct (test_loop cases (S i) _ w) as [o t w1].
    cbn [outcome] in *. rewrite IH.
    destruct (_ && optional_eqb _ _); destruct all_passed; reflexivity.
Qed.

End TestFacts.

(** ** The further properties on scripted runtimes *)

Lemma success_iff_witness :
  outcome (accelerate_pull (scripted grumpy) "nginx:latest" 0) = Return true <->
  exists out err w1 rc_tag out_tag err_tag w2,
    scripted grumpy
      ["docker"; "pull"; "m.daocloud.io/docker.io/library/nginx:latest"] 0
      = (Exited 0 out err, w1) /\
    scripted grumpy
      ["docker"; "tag"; "m.daocloud.io/docker.io/library/nginx:latest";
       "docker.io/library/nginx:latest"] w1
      = (Exited rc_tag out_tag err_tag, w2) /\
    ("m.daocloud.io/docker.io/library/nginx:latest"
     = "docker.io/library/nginx:latest" \/
     exists rc_rmi out_rmi err_rmi w3,
       scripted grumpy
         ["docker"; "rmi"; "m.daocloud.io/docker.io/library/nginx:latest"] w2
         = (Exited rc_rmi out_rmi err_rmi, w3)).
Proof.
  exact (success_iff (scripted grumpy) "nginx:latest"
           "m.daocloud.io/docker.io/library/nginx:latest" 0 eq_refl).
Defined.

Lemma rmi_not_run_fails_witness :
  scripted no_cleanup
    ["docker"; "rmi"; "m.daocloud.io/docker.io/library/nginx:latest"] 2
    = (NotRun "[Errno 12] Cannot allocate memory", 3) /\
  outcome (accelerate_pull (scripted no_cleanup) "nginx:latest" 0)
    = Return false /\
  exists before,
    trace (accelerate_pull (scripted no_cleanup) "nginx:latest" 0) =
      (before ++
       [Spawn ["docker"; "rmi"; "m.daocloud.io/docker.io/library/nginx:latest"];
        Print "[ERROR] Exception occurred: [Errno 12] Cannot allocate memory"])%list.
Proof.
  split; [reflexivity|].
  apply (rmi_not_run_fails (scripted no_cleanup) "nginx:latest"
           "m.daocloud.io/docker.io/library/nginx:latest" 0 1 2 3
           "" "" 0 "" "" "[Errno 12] Cannot allocate memory");
    [reflexivity | discriminate | reflexivity | reflexivity | reflexivity].
Defined.

Lemma pull_not_run_stops_witness :
  scripted absent
    ["docker"; "pull"; "m.daocloud.io/docker.io/library/nginx:latest"] 0
    = (NotRun "[Errno 2] No such file or directory: 'docker'", 1) /\
  outcome (accelerate_pull (scripted absent) "nginx:latest" 0) = Return false /\
  commands (trace (accelerate_pull (scripted absent) "nginx:latest" 0)) =
    [["docker"; "pull"; "m.daocloud.io/docker.io/library/nginx:latest"]] /\
  after (accelerate_pull (scripted absent) "nginx:latest" 0) = 1.
Proof.
  split; [reflexivity|].
  exact (pull_not_run_stops (scripted absent) "nginx:latest"
           "m.daocloud.io/docker.io/library/nginx:latest" 0 1
           "[Errno 2] No such file or directory: 'docker'" eq_refl eq_refl).
Defined.

Lemma tag_not_run_stops_witness :
  outcome (accelerate_pull (scripted vanishing) "nginx:latest" 0)
    = Return false /\
  commands (trace (accelerate_pull (scripted vanishing) "nginx:latest" 0)) =
    [["docker"; "pull"; "m.daocloud.io/docker.io/library/nginx:latest"];
     ["docker"; "tag"; "m.daocloud.io/docker.io/library/nginx:latest";
      "docker.io/library/nginx:latest"]].
Proof.
  exact (tag_not_run_stops (scripted vanishing) "nginx:latest"
           "m.daocloud.io/docker.io/library/nginx:latest" 0 1 2 "" ""
           "[Errno 2] No such file or directory: 'docker'"
           eq_refl eq_refl eq_refl).
Defined.
